(** * echo-middleware: request observability middleware for Echo

    A shallow embedding of the Go package [echomiddleware] (echo_zap.go,
    body_dump.go, and model.go with the logger-context middlewares and
    accessors that follow the body-dump record) and the properties of
    its body tee, its logging policy, its correlation context store and
    its persistence path.

    Go values are modelled as follows.
    - [[]byte] is [list byte]; a Go [string] is a Rocq [string] (a
      sequence of 8-bit characters); [string(b)] is
      [string_of_list_byte].
    - [int] and [int64] are [Z]; the 64-bit wrap-around is written out
      where a conversion can overflow.
    - [error] is the error's message; a nil error is [None].
    - [map[string]T] is [gmap string T].
    - an [echo.Context] together with the process state it points into
      (connection, buffers, log sink, goroutines) is one record that the
      handlers pass along. *)

From Stdlib Require Import ZArith List Lia Ascii String SpecFloat.
From Stdlib.Strings Require Import Byte.
From stdpp Require Import base option strings gmap list.

Open Scope string_scope.
Open Scope list_scope.

(** ** Errors *)

Definition error := string.

Definition io_ErrShortWrite : error := "short write".

(** ** Readers: [io.Reader], [io.ReadAll], [bytes.Buffer], [io.NopCloser] *)

Module IO.

(** What the successive [Read] calls on a stream will deliver: chunks of
    bytes, closed by [io.EOF] or by an error. *)
Inductive Reader : Type :=
| AtEOF
| Failing (e : error)
| Chunk (bs : list byte) (rest : Reader).

(** [io.ReadAll]: read until [io.EOF] or an error; [io.EOF] is reported
    as a nil error, any other error comes with the bytes read so far. *)
Fixpoint ReadAll (r : Reader) : list byte * option error :=
  match r with
  | AtEOF => ([], None)
  | Failing e => ([], Some e)
  | Chunk bs rest =>
      let '(tl, e) := ReadAll rest in (bs ++ tl, e)
  end.

(** The stream left behind once [io.ReadAll] has returned. *)
Fixpoint drained (r : Reader) : Reader :=
  match r with
  | AtEOF => AtEOF
  | Failing e => Failing e
  | Chunk _ rest => drained rest
  end.

(** [io.NopCloser(bytes.NewBuffer(b))]: a stream over the bytes of [b]. *)
Definition NewBuffer (b : list byte) : Reader :=
  match b with
  | [] => AtEOF
  | _ :: _ => Chunk b AtEOF
  end.

(** A stream that delivers the given chunks and then [io.EOF]. *)
Fixpoint stream_of (chunks : list (list byte)) : Reader :=
  match chunks with
  | [] => AtEOF
  | c :: cs => Chunk c (stream_of cs)
  end.

End IO.

(** ** The process around one request *)

(** Go interface values, as far as this package stores them. *)
Inductive SugaredLogger : Type :=
| MkSugared (base : string) (fields : list (string * string)).

Inductive any : Type :=
| Nil
| Str (s : string)
| Int (z : Z)
| LoggerPtr (l : SugaredLogger)
| Err (e : error)
| Opaque (tag : string).

(** *** [go.opentelemetry.io/otel/trace] *)

Record SpanContext : Type := mkSpanContext {
  TraceID : list byte;   (* [16]byte *)
  SpanID : list byte     (* [8]byte *)
}.

Definition is_zero_byte (b : byte) : bool := Byte.eqb b x00.

(** [TraceID.IsValid], [SpanID.IsValid]: not the all-zero array. *)
Definition id_IsValid (id : list byte) : bool := negb (forallb is_zero_byte id).

Definition IsValid (sc : SpanContext) : bool :=
  id_IsValid (TraceID sc) && id_IsValid (SpanID sc).

(** The span context of the no-op span. *)
Definition noSpan : SpanContext :=
  {| TraceID := repeat x00 16; SpanID := repeat x00 8 |}.

Definition hex_digit (n : N) : ascii :=
  nth (N.to_nat n) (list_ascii_of_string "0123456789abcdef") "f"%char.

(** [TraceID.String], [SpanID.String]: lower-case hexadecimal. *)
Fixpoint hex (id : list byte) : string :=
  match id with
  | [] => ""
  | b :: tl =>
      let n := Byte.to_N b in
      String (hex_digit (n / 16)) (String (hex_digit (n mod 16)) (hex tl))
  end.

(** *** [context.Context] *)

Inductive Context : Type :=
| Background
| WithValue (parent : Context) (key : string) (val : any)
| ContextWithSpanContext (parent : Context) (sc : SpanContext).

(** [ctx.Value(key)] for a string key: the innermost binding, or nil. *)
Fixpoint Value (ctx : Context) (key : string) : any :=
  match ctx with
  | Background => Nil
  | WithValue parent k v => if String.eqb k key then v else Value parent key
  | ContextWithSpanContext parent _ => Value parent key
  end.

(** [trace.SpanFromContext(ctx).SpanContext()]: the innermost span, or
    the no-op span. *)
Fixpoint SpanFromContext (ctx : Context) : SpanContext :=
  match ctx with
  | Background => noSpan
  | WithValue parent _ _ => SpanFromContext parent
  | ContextWithSpanContext _ sc => sc
  end.

(** *** [net/http] requests and headers *)

Abbreviation Header := (gmap string (list string)).

(** [http.Header.Get]: the first value bound to the key, or the empty
    string. *)
Definition Header_Get (h : Header) (key : string) : string :=
  match h !! key with
  | Some (v :: _) => v
  | _ => ""
  end.

Definition HeaderXRequestID : string := "X-Request-Id".

Record Request : Type := mkRequest {
  Method : string;
  RequestURI : string;
  Host : string;
  RemoteAddr : string;
  Proto : string;
  ReqHeader : Header;
  Form : Header;                (* url.Values *)
  Body : IO.Reader;
  ReqContext : Context
}.

Definition set_Body (b : IO.Reader) (r : Request) : Request :=
  {| Method := Method r; RequestURI := RequestURI r; Host := Host r;
     RemoteAddr := RemoteAddr r; Proto := Proto r; ReqHeader := ReqHeader r;
     Form := Form r; Body := b; ReqContext := ReqContext r |}.

(** [r.WithContext(ctx)] *)
Definition WithContext (r : Request) (ctx : Context) : Request :=
  {| Method := Method r; RequestURI := RequestURI r; Host := Host r;
     RemoteAddr := RemoteAddr r; Proto := Proto r; ReqHeader := ReqHeader r;
     Form := Form r; Body := Body r; ReqContext := ctx |}.

Definition UserAgent (r : Request) : string := Header_Get (ReqHeader r) "User-Agent".
Definition Referer (r : Request) : string := Header_Get (ReqHeader r) "Referer".

(** *** Writers *)

(** The [io.Writer] values of one exchange.  [Buffer a] is the
    [*bytes.Buffer] allocated at address [a]; [responseWriter] is the
    struct of echo_zap.go, which embeds an [io.Writer] and an
    [http.ResponseWriter]. *)
Inductive Writer : Type :=
| Conn
| Buffer (addr : nat)
| MultiWriter (first second : Writer)
| responseWriter (W : Writer) (ResponseWriter : Writer).

(** *** [zapcore] fields and entries *)

Inductive FieldType : Type :=
| UnknownType | ArrayMarshalerType | ObjectMarshalerType | BinaryType
| BoolType | ByteStringType | Complex128Type | Complex64Type
| DurationType | Float64Type | Float32Type
| Int64Type | Int32Type | Int16Type | Int8Type
| StringType | TimeType | TimeFullType
| Uint64Type | Uint32Type | Uint16Type | Uint8Type | UintptrType
| ReflectType | NamespaceType | StringerType | ErrorType | SkipType
| InlineMarshalerType.

Record Field : Type := mkField {
  Key : string;
  Type_ : FieldType;
  Integer : Z;
  String_ : string;
  Interface : any
}.

Inductive Level : Type := DebugLevel | InfoLevel | WarnLevel | ErrorLevel.

Record Entry : Type := mkEntry {
  level : Level;
  Message : string;
  Fields : list Field
}.

(** *** The persistence target *)

Record Collection : Type := mkCollection { coll_name : string }.

(** What [zapFieldsToMap] stores under a key: the dynamic type and the
    value of the [interface{}]. *)
Inductive DocValue : Type :=
| DString (s : string)
| DInt64 (z : Z)
| DFloat64 (f : spec_float)
| DBool (b : bool)
| DInterface (v : any).

Abbreviation Document := (gmap string DocValue).

(** The closure of the goroutine that [ZapLogger] starts: its captured
    [collection] and its argument [fields]. *)
Record Task : Type := mkTask {
  task_collection : option Collection;
  task_fields : list Field
}.

(** *** One exchange *)

(** The [echo.Context] [c] and the process state reachable from it. *)
Record State : Type := mkState {
  (* echo.Context *)
  request : Request;              (* c.Request() *)
  res_Writer : Writer;            (* c.Response().Writer *)
  res_Status : Z;                 (* c.Response().Status *)
  res_Header : Header;            (* c.Response().Header() *)
  path : string;                  (* c.Path() *)
  ParamValues : list string;      (* c.ParamValues() *)
  store : gmap string any;        (* c.Set, c.Get *)
  (* process *)
  sent : list byte;               (* bytes the client connection has taken *)
  buffers : list (list byte);     (* the bytes.Buffer values, by address *)
  entries : list Entry;           (* calls made on the *zap.Logger given to ZapLogger *)
  global_entries : list Entry;    (* calls made on zap.S() *)
  goroutines : list Task;         (* started, not yet run *)
  inserts : list (Collection * Document);  (* InsertOne calls made *)
  span_attrs : list (string * string)      (* attributes set on the active span *)
}.

Definition set_request (r : Request) (c : State) : State :=
  mkState r (res_Writer c) (res_Status c) (res_Header c) (path c)
    (ParamValues c) (store c) (sent c) (buffers c) (entries c)
    (global_entries c) (goroutines c) (inserts c) (span_attrs c).

Definition set_Writer (w : Writer) (c : State) : State :=
  mkState (request c) w (res_Status c) (res_Header c) (path c)
    (ParamValues c) (store c) (sent c) (buffers c) (entries c)
    (global_entries c) (goroutines c) (inserts c) (span_attrs c).

Definition set_Status (n : Z) (c : State) : State :=
  mkState (request c) (res_Writer c) n (res_Header c) (path c)
    (ParamValues c) (store c) (sent c) (buffers c) (entries c)
    (global_entries c) (goroutines c) (inserts c) (span_attrs c).

Definition set_store (m : gmap string any) (c : State) : State :=
  mkState (request c) (res_Writer c) (res_Status c) (res_Header c) (path c)
    (ParamValues c) m (sent c) (buffers c) (entries c)
    (global_entries c) (goroutines c) (inserts c) (span_attrs c).

Definition set_sent (b : list byte) (c : State) : State :=
  mkState (request c) (res_Writer c) (res_Status c) (res_Header c) (path c)
    (ParamValues c) (store c) b (buffers c) (entries c)
    (global_entries c) (goroutines c) (inserts c) (span_attrs c).

Definition set_buffers (bs : list (list byte)) (c : State) : State :=
  mkState (request c) (res_Writer c) (res_Status c) (res_Header c) (path c)
    (ParamValues c) (store c) (sent c) bs (entries c)
    (global_entries c) (goroutines c) (inserts c) (span_attrs c).

Definition set_entries (es : list Entry) (c : State) : State :=
  mkState (request c) (res_Writer c) (res_Status c) (res_Header c) (path c)
    (ParamValues c) (store c) (sent c) (buffers c) es
    (global_entries c) (goroutines c) (inserts c) (span_attrs c).

Definition set_global_entries (es : list Entry) (c : State) : State :=
  mkState (request c) (res_Writer c) (res_Status c) (res_Header c) (path c)
    (ParamValues c) (store c) (sent c) (buffers c) (entries c)
    es (goroutines c) (inserts c) (span_attrs c).

Definition set_goroutines (ts : list Task) (c : State) : State :=
  mkState (request c) (res_Writer c) (res_Status c) (res_Header c) (path c)
    (ParamValues c) (store c) (sent c) (buffers c) (entries c)
    (global_entries c) ts (inserts c) (span_attrs c).

Definition set_inserts (l : list (Collection * Document)) (c : State) : State :=
  mkState (request c) (res_Writer c) (res_Status c) (res_Header c) (path c)
    (ParamValues c) (store c) (sent c) (buffers c) (entries c)
    (global_entries c) (goroutines c) l (span_attrs c).

Definition set_span_attrs (l : list (string * string)) (c : State) : State :=
  mkState (request c) (res_Writer c) (res_Status c) (res_Header c) (path c)
    (ParamValues c) (store c) (sent c) (buffers c) (entries c)
    (global_entries c) (goroutines c) (inserts c) l.

(** [echo.HandlerFunc]: [func(c echo.Context) error]. *)
Definition HandlerFunc : Type := State -> option error * State.

(** [echo.MiddlewareFunc] *)
Definition MiddlewareFunc : Type := HandlerFunc -> HandlerFunc.

(** model.go *)
Record BodyDumpModel : Type := mkBodyDumpModel {
  bd_Host : string;
  bd_Path : string;
  bd_Method : string;
  bd_RemoteAddress : string;
  bd_Header : string;
  bd_Status : Z;
  bd_Request : string;
  bd_Response : string
}.

(** ** The collaborators the package calls into

    The routing framework, the websocket library, the clock, the
    formatting routines, the configuration and the store are outside the
    package; their answers during one exchange are the fields of this
    record. *)
Record Runtime : Type := mkRuntime {
  (* github.com/gorilla/websocket: whether a header holds a value among
     its comma-separated tokens, compared without case *)
  tokenListContainsValue : Header -> string -> string -> bool;
  (* the server side of the connection: given the bytes already taken and
     the bytes offered, how many are taken and the error reported *)
  conn_accept : list byte -> list byte -> nat * option error;
  (* echo: c.Error(err), c.RealIP(), c.QueryString() *)
  HTTPErrorHandler : error -> State -> State;
  RealIP : Request -> string;
  QueryString : Request -> string;
  (* fmt.Sprintf with the verb v on a header map; url.Values.Encode *)
  Sprint_Header : Header -> string;
  Form_Encode : Header -> string;
  (* time: time.Since(start).String(), time.Now().Format(time.RFC3339),
     time.Now().Unix(), time.Unix(0, ns).Format(time.RFC3339) *)
  latency : string;
  now_RFC3339 : string;
  now_Unix : Z;
  Format_RFC3339 : Z -> string;
  (* mongo: collection.InsertOne under the deadline of its context; a
     missed deadline is one of the errors *)
  InsertOne : Collection -> Document -> option error;
  (* encoding/json, viper, zap *)
  json_Marshal : BodyDumpModel -> string;
  ENVIRONMENT : string;
  zap_S : SugaredLogger
}.

(** ** zap field constructors *)

Module zap.

#[local] Open Scope Z_scope.

Definition two63 : Z := 9223372036854775808.
Definition two64 : Z := 18446744073709551616.

(** Conversion to [int64]: the value modulo 2^64, read as signed. *)
Definition int64 (z : Z) : Z := (z + two63) mod two64 - two63.


(** Conversion of an [int64] to [float64]: the nearest binary64 value,
    ties to even. *)
Definition float64 (z : Z) : spec_float := binary_normalize 53 1024 z 0 false.

Definition String (key val : string) : Field :=
  mkField key StringType 0 val Nil.

Definition Int64 (key : string) (val : Z) : Field :=
  mkField key Int64Type val "" Nil.

Definition Int (key : string) (val : Z) : Field := Int64 key (int64 val).












Definition Reflect (key : string) (val : any) : Field :=
  mkField key ReflectType 0 "" val.

(** [zap.Error(err)] for a non-nil error. *)
Definition Error (err : error) : Field :=
  mkField "error" ErrorType 0 "" (Err err).

(** [SugaredLogger.With] on string keys and values. *)
Definition With (l : SugaredLogger) (kvs : list (string * string)) : SugaredLogger :=
  match l with
  | MkSugared base fs => MkSugared base (fs ++ kvs)
  end.

End zap.

(** [fmt.Sprintf] with the verb v on a slice of strings. *)
Fixpoint join_space (l : list string) : string :=
  match l with
  | [] => ""
  | [s] => s
  | s :: tl => s ++ " " ++ join_space tl
  end.

Definition Sprint_strings (l : list string) : string := "[" ++ join_space l ++ "]".

(** [strings.ReplaceAll(s, old, new)] for a non-empty [old], as at every
    call site of this package: scan left to right, replace each match and
    resume after it. *)
Fixpoint ReplaceAll_from (skip : nat) (s old new : string) : string :=
  match s with
  | EmptyString => EmptyString
  | String ch tl =>
      match skip with
      | S k => ReplaceAll_from k tl old new
      | O =>
          if String.prefix old s
          then new ++ ReplaceAll_from (String.length old - 1) tl old new
          else String ch (ReplaceAll_from 0 tl old new)
      end
  end.

Definition ReplaceAll (s old new : string) : string := ReplaceAll_from 0 s old new.

Definition LF : string := String (ascii_of_nat 10) EmptyString.
Definition CR : string := String (ascii_of_nat 13) EmptyString.
Definition TAB : string := String (ascii_of_nat 9) EmptyString.

(** ** The package *)

Section Package.

Variable rt : Runtime.

(** [websocket.IsWebSocketUpgrade] *)
Definition IsWebSocketUpgrade (r : Request) : bool :=
  tokenListContainsValue rt (ReqHeader r) "Connection" "upgrade"
  && tokenListContainsValue rt (ReqHeader r) "Upgrade" "websocket".

(** *** Writing *)

(** [w.Write(p)].  The connection takes what the server lets it take;
    a [bytes.Buffer] takes everything; [io.MultiWriter] offers [p] to its
    writers in order and stops at the first error or short write;
    [responseWriter.Write] (echo_zap.go) delegates to the embedded
    [io.Writer]. *)
Fixpoint Write (w : Writer) (p : list byte) (c : State) : (nat * option error) * State :=
  match w with
  | Conn =>
      let '(k, e) := conn_accept rt (sent c) p in
      let n := Nat.min k (length p) in
      ((n, e), set_sent (sent c ++ take n p) c)
  | Buffer a =>
      ((length p, None), set_buffers (alter (fun b => b ++ p) a (buffers c)) c)
  | MultiWriter w1 w2 =>
      let '((n, e), c1) := Write w1 p c in
      match e with
      | Some _ => ((n, e), c1)
      | None =>
          if negb (n =? length p)%nat then ((n, Some io_ErrShortWrite), c1)
          else
            let '((n2, e2), c2) := Write w2 p c1 in
            match e2 with
            | Some _ => ((n2, e2), c2)
            | None =>
                if negb (n2 =? length p)%nat then ((n2, Some io_ErrShortWrite), c2)
                else ((length p, None), c2)
            end
      end
  | responseWriter W _ => Write W p c
  end.

(** A handler writing [p] through [c.Response().Writer]. *)
Definition Response_Write (p : list byte) (c : State) : (nat * option error) * State :=
  Write (res_Writer c) p c.

(** A sequence of writes through [c.Response().Writer], each one made
    whatever the previous ones returned. *)
Definition write_all (ps : list (list byte)) (c : State) : State :=
  foldl (fun c p => snd (Response_Write p c)) c ps.

(** [resBody.String()] for the buffer at address [a]. *)
Definition Buffer_bytes (a : nat) (c : State) : list byte :=
  default [] (buffers c !! a).

(** *** echo_zap.go *)

Definition readAndResetBody (req : Request) : (list byte * option error) * Request :=
  let '(bodyBytes, err) := IO.ReadAll (Body req) in
  match err with
  | Some e => (([], Some e), set_Body (IO.drained (Body req)) req)
  | None => ((bodyBytes, None), set_Body (IO.NewBuffer bodyBytes) req)
  end.

(** The [switch] on [res.Status] in [ZapLogger]: the level and the
    message of the log call. *)
Definition classify (n : Z) : Level * string :=
  if (500 <=? n)%Z then (ErrorLevel, "Server error")
  else if (400 <=? n)%Z then (WarnLevel, "Client error")
  else if (300 <=? n)%Z then (InfoLevel, "Redirection")
  else (InfoLevel, "Success").

(** One value of the map built by [zapFieldsToMap]. *)
Definition field_value (field : Field) : DocValue :=
  match Type_ field with
  | StringType => DString (String_ field)
  | Int64Type | Int32Type | Int16Type | Int8Type
  | Uint64Type | Uint32Type | Uint16Type | Uint8Type => DInt64 (Integer field)
  | Float64Type | Float32Type => DFloat64 (zap.float64 (Integer field))
  | BoolType => DBool (negb (Integer field =? 0)%Z)
  | TimeType => DString (Format_RFC3339 rt (Integer field))
  | DurationType => DInt64 (Integer field)
  | ReflectType => DInterface (Interface field)
  | _ => DString (String_ field)
  end.

Definition zapFieldsToMap (fields : list Field) : Document :=
  foldl (fun fieldMap field => <[Key field := field_value field]> fieldMap) ∅ fields.

Definition mongoInsertFunc (collection : option Collection) (document : Document)
    (c : State) : option error * State :=
  match collection with
  | None => (Some "collection is nil", c)
  | Some coll =>
      (InsertOne rt coll document, set_inserts (inserts c ++ [(coll, document)]) c)
  end.

(** A call [log.Error], [log.Warn] or [log.Info] on the logger given to
    [ZapLogger]. *)
Definition log_call (l : Level) (msg : string) (fields : list Field) (c : State) : State :=
  set_entries (entries c ++ [mkEntry l msg fields]) c.

(** The body of the goroutine started by [ZapLogger]. *)
Definition persist (t : Task) (c : State) : State :=
  let fieldMap := zapFieldsToMap (task_fields t) in
  let '(err, c1) := mongoInsertFunc (task_collection t) fieldMap c in
  match err with
  | Some e => log_call ErrorLevel "Error while inserting log to mongo" [zap.Error e] c1
  | None => c1
  end.

(** The scheduler runs the goroutines that were started. *)
Definition run_goroutines (c : State) : State :=
  foldl (fun c t => persist t c) (set_goroutines [] c) (goroutines c).

Definition GetSpanFromContext (ctx : Context) : SpanContext := SpanFromContext ctx.

(** *** The logger context: keys and accessors *)

Definition loggerContextKey : string := "logger".
Definition traceIDContextKey : string := "trace_id".
Definition spanIDContextKey : string := "span_id".
Definition requestIDContextKey : string := "request_id".
Definition RequestIDAttribute : string := "request.id".

(** [c.Set], [c.Get] *)
Definition c_Set (key : string) (val : any) (c : State) : State :=
  set_store (<[key := val]> (store c)) c.

Definition c_Get (key : string) (c : State) : any :=
  default Nil (store c !! key).

(** The type assertions of a stored value to [string] and to a
    [zap.SugaredLogger] pointer, with the default each accessor returns
    when the assertion fails. *)
Definition as_string (v : any) : string :=
  match v with
  | Str s => s
  | _ => ""
  end.

Definition as_logger (v : any) : SugaredLogger :=
  match v with
  | LoggerPtr l => l
  | _ => zap_S rt
  end.

Definition GetLogger (c : State) : SugaredLogger := as_logger (c_Get loggerContextKey c).
Definition GetLoggerFromContext (ctx : Context) : SugaredLogger := as_logger (Value ctx loggerContextKey).
Definition GetTraceID (c : State) : string := as_string (c_Get traceIDContextKey c).
Definition GetTraceIDFromContext (ctx : Context) : string := as_string (Value ctx traceIDContextKey).
Definition GetSpanID (c : State) : string := as_string (c_Get spanIDContextKey c).
Definition GetSpanIDFromContext (ctx : Context) : string := as_string (Value ctx spanIDContextKey).
Definition GetRequestID (c : State) : string := as_string (c_Get requestIDContextKey c).
Definition GetRequestIDFromContext (ctx : Context) : string := as_string (Value ctx requestIDContextKey).

(** *** echo_zap.go: [ZapLogger]

    [req] is a pointer, and a request installed later by
    [c.SetRequest(r.WithContext(ctx))] shares every field of [req] but
    the context; both are read from [request c]. *)

(** The field record built after the handler has returned. *)
Definition log_fields (bodyBytes : list byte) (resBody : nat) (c : State) : list Field :=
  let req := request c in
  let requestID := Header_Get (ReqHeader req) HeaderXRequestID in
  let requestID :=
    if String.eqb requestID "" then Header_Get (res_Header c) HeaderXRequestID
    else requestID in
  let span := GetSpanFromContext (ReqContext (request c)) in
  let tracerID := GetTraceIDFromContext (ReqContext (request c)) in
  let spanID := hex (SpanID span) in
  let params := Sprint_strings (ParamValues c) in
  [ zap.Int "status" (res_Status c);
    zap.String "latency" (latency rt);
    zap.String "request_id" requestID;
    zap.String "trace_id" tracerID;
    zap.String "span_id" spanID;
    zap.String "time" (now_RFC3339 rt);
    zap.Int64 "timestamp" (now_Unix rt);
    zap.String "method" (Method req);
    zap.String "uri" (RequestURI req);
    zap.String "host" (Host req);
    zap.String "remote_ip" (RealIP rt req);
    zap.String "header" (Sprint_Header rt (ReqHeader req));
    zap.String "path" (path c);
    zap.String "query" (QueryString rt req);
    zap.String "form" (Form_Encode rt (Form req));
    zap.String "param" params;
    zap.String "body" (string_of_list_byte bodyBytes);
    zap.String "user_agent" (UserAgent req);
    zap.String "referer" (Referer req);
    zap.String "request_proto" (Proto req);
    zap.String "response" (string_of_list_byte (Buffer_bytes resBody c)) ].

(** From [start := time.Now()] to the call of [next]: capture the request
    body and install the tee.  Returns the captured bytes, the address of
    [resBody] and the error of the body read. *)
Definition ZapLogger_enter (c : State) : (list byte * nat) * option error * State :=
  let req := request c in
  let '((bodyBytes, err), c1) :=
    if negb (IsWebSocketUpgrade req)
    then let '(r, req') := readAndResetBody req in (r, set_request req' c)
    else (([], None), c) in
  match err with
  | Some e => (([], 0%nat), Some e, c1)
  | None =>
      let resBody := length (buffers c1) in
      let c2 := set_buffers (buffers c1 ++ [[]]) c1 in
      let mw := MultiWriter (res_Writer c2) (Buffer resBody) in
      let writer := responseWriter mw (res_Writer c2) in
      let c3 :=
        if negb (IsWebSocketUpgrade (request c2)) then set_Writer writer c2 else c2 in
      ((bodyBytes, resBody), None, c3)
  end.

(** [err = next(c); if err != nil { c.Error(err) }]: the exchange once
    the handler has returned. *)
Definition handled (r : option error * State) : State :=
  match r with
  | (Some e, c) => HTTPErrorHandler rt e c
  | (None, c) => c
  end.

(** From the return of [next] to the end. *)
Definition ZapLogger_leave (collection : option Collection) (bodyBytes : list byte)
    (resBody : nat) (r : option error * State) : option error * State :=
  let c := handled r in
  let fields := log_fields bodyBytes resBody c in
  if String.eqb (path c) "/healthz" && (res_Status c =? 200)%Z then (None, c)
  else
    let n := res_Status c in
    let c := log_call (fst (classify n)) (snd (classify n)) fields c in
    let c :=
      match collection with
      | Some _ => set_goroutines (goroutines c ++ [mkTask collection fields]) c
      | None => c
      end in
    (None, c).

Definition ZapLogger (collection : option Collection) : MiddlewareFunc :=
  fun next c =>
    if IsWebSocketUpgrade (request c) then next c
    else
      match ZapLogger_enter c with
      | (_, Some e, c1) => (Some e, c1)
      | ((bodyBytes, resBody), None, c1) =>
          ZapLogger_leave collection bodyBytes resBody (next c1)
      end.

(** *** The logger context: the middlewares *)

Definition OtelLoggerMiddleware : MiddlewareFunc :=
  fun next c =>
    let span := SpanFromContext (ReqContext (request c)) in
    let requestID := Header_Get (res_Header c) HeaderXRequestID in
    let requestID :=
      if String.eqb requestID "" then Header_Get (ReqHeader (request c)) HeaderXRequestID
      else requestID in
    let c :=
      if IsValid span
      then set_span_attrs (span_attrs c ++ [(RequestIDAttribute, requestID)]) c
      else c in
    let ctx := WithValue (ReqContext (request c)) requestIDContextKey (Str requestID) in
    let c := set_request (WithContext (request c) ctx) c in
    next c.

Definition LoggerWithContext : MiddlewareFunc :=
  fun next c =>
    let spanContext := SpanFromContext (ReqContext (request c)) in
    let '(traceID, spanID) :=
      if IsValid spanContext
      then (hex (TraceID spanContext), hex (SpanID spanContext))
      else ("", "") in
    let requestID := Header_Get (res_Header c) HeaderXRequestID in
    let requestID :=
      if String.eqb requestID "" then Header_Get (ReqHeader (request c)) HeaderXRequestID
      else requestID in
    let logger :=
      zap.With (zap_S rt)
        [("trace_id", traceID); ("span_id", spanID); ("request_id", requestID)] in
    let c := c_Set loggerContextKey (LoggerPtr logger) c in
    let c := c_Set traceIDContextKey (Str traceID) c in
    let c := c_Set spanIDContextKey (Str spanID) c in
    let c := c_Set requestIDContextKey (Str requestID) c in
    let ctx := WithValue (ReqContext (request c)) loggerContextKey (LoggerPtr logger) in
    let ctx := WithValue ctx traceIDContextKey (Str traceID) in
    let ctx := WithValue ctx spanIDContextKey (Str spanID) in
    let ctx := WithValue ctx requestIDContextKey (Str requestID) in
    let c := set_request (WithContext (request c) ctx) c in
    next c.

(** *** body_dump.go *)

Definition BodyDump (c : State) (reqBody resBody : list byte) : State :=
  if negb (String.eqb (ENVIRONMENT rt) "production")
     && negb (String.eqb (path c) "/healthz")
  then
    let reqBodyString := string_of_list_byte reqBody in
    let reqBodyString := ReplaceAll reqBodyString LF "" in
    let reqBodyString := ReplaceAll reqBodyString CR "" in
    let reqBodyString := ReplaceAll reqBodyString TAB "" in
    let resBodyString := string_of_list_byte resBody in
    let resBodyString := ReplaceAll resBodyString LF "" in
    let resBodyString := ReplaceAll resBodyString CR "" in
    let resBodyString := ReplaceAll resBodyString TAB "" in
    let j :=
      json_Marshal rt
        {| bd_Host := Host (request c);
           bd_Path := path c;
           bd_Method := Method (request c);
           bd_RemoteAddress := RemoteAddr (request c);
           bd_Header := Sprint_Header rt (ReqHeader (request c));
           bd_Status := res_Status c;
           bd_Request := reqBodyString;
           bd_Response := resBodyString |} in
    set_global_entries
      (global_entries c ++ [mkEntry InfoLevel ("Body dump: " ++ j) []]) c
  else c.

End Package.

(** ** What the specification says, in its own words *)

(** The bytes of a body that are neither a newline, a carriage return
    nor a tab. *)
Definition is_control (b : byte) : bool :=
  Byte.eqb b x0a || Byte.eqb b x0d || Byte.eqb b x09.

Definition sanitized (body : list byte) : string :=
  string_of_list_byte (List.filter (fun b => negb (is_control b)) body).

(** Whether the connection takes each write of a sequence in full and
    without error, starting from the bytes [s] it has already taken. *)
Fixpoint accepts (rt : Runtime) (s : list byte) (ps : list (list byte)) : bool :=
  match ps with
  | [] => true
  | p :: tl =>
      match conn_accept rt s p with
      | (k, None) => (length p <=? k)%nat && accepts rt (s ++ p) tl
      | (_, Some _) => false
      end
  end.

(** The health-check gate of [ZapLogger]: the two conditions under which
    it records nothing. *)
Definition suppressed (c : State) : bool :=
  String.eqb (path c) "/healthz" && (res_Status c =? 200)%Z.

(** The exchange after the log call of [ZapLogger] and the start of its
    goroutine. *)
Definition logged (collection : option Collection) (fields : list Field) (c : State) : State :=
  let c1 := log_call (fst (classify (res_Status c))) (snd (classify (res_Status c))) fields c in
  match collection with
  | Some _ => set_goroutines (goroutines c1 ++ [mkTask collection fields]) c1
  | None => c1
  end.

(** The resolution order of the specification: the outbound response
    header first, then the inbound request header. *)
Definition response_first (c : State) : string :=
  let id := Header_Get (res_Header c) HeaderXRequestID in
  if String.eqb id "" then Header_Get (ReqHeader (request c)) HeaderXRequestID else id.


(** The entry of the goroutine for a store error. *)
Definition insert_failure (e : error) : Entry :=
  mkEntry ErrorLevel "Error while inserting log to mongo" [zap.Error e].

(** The string value of the field of an entry with the given key. *)
Definition entry_string (key : string) (e : Entry) : option string :=
  String_ <$> find (fun f => String.eqb (Key f) key) (Fields e).

(** The integer payload of the field of an entry with the given key. *)
Definition entry_int (key : string) (e : Entry) : option Z :=
  Integer <$> find (fun f => String.eqb (Key f) key) (Fields e).

(** The last field of a record that carries the given key. *)
Definition last_field (key : string) (fields : list Field) : option Field :=
  find (fun f => String.eqb (Key f) key) (rev fields).

(** A [zapcore.Level] as the number zap gives it. *)
Definition Level_value (l : Level) : Z :=
  match l with
  | DebugLevel => -1
  | InfoLevel => 0
  | WarnLevel => 1
  | ErrorLevel => 2
  end.

(** A body without its newline, carriage-return and tab bytes. *)
Definition strip_controls (body : list byte) : list byte :=
  List.filter (fun b => negb (is_control b)) body.

(** A handler that does nothing and returns nil. *)
Definition pass : HandlerFunc := fun c => (None, c).

(** A handler that sets the status and writes the given chunks through
    [c.Response().Writer], as [c.String] and [c.Blob] do, and returns
    nil. *)
Definition respond (rt : Runtime) (code : Z) (ps : list (list byte)) : HandlerFunc :=
  fun c => (None, write_all rt ps (set_Status code c)).

(** Two exchanges that differ at most in the bytes the client has taken
    and in the contents of the buffers. *)
Definition only_io_differs (c c' : State) : Prop :=
  request c' = request c /\ res_Writer c' = res_Writer c
  /\ res_Status c' = res_Status c /\ res_Header c' = res_Header c
  /\ path c' = path c /\ ParamValues c' = ParamValues c
  /\ store c' = store c /\ entries c' = entries c
  /\ global_entries c' = global_entries c /\ goroutines c' = goroutines c
  /\ inserts c' = inserts c /\ span_attrs c' = span_attrs c.

(** The keys that [LoggerWithContext] binds. *)
Definition bound_keys : list string :=
  [loggerContextKey; traceIDContextKey; spanIDContextKey; requestIDContextKey].

(** ** Concrete exchanges *)

Module Demo.

Definition bytes (s : string) : list byte := list_byte_of_string s.

(** A server whose connection takes every write, whose store refuses
    every insert, and whose framework answers a handler error with a
    status 500. *)
Definition rt : Runtime :=
  {| tokenListContainsValue := fun h name value => String.eqb (Header_Get h name) value;
     conn_accept := fun _ p => (length p, None);
     HTTPErrorHandler := fun _ c => set_Status 500 c;
     RealIP := RemoteAddr;
     QueryString := fun _ => "";
     Sprint_Header := fun _ => "map[]";
     Form_Encode := fun _ => "";
     latency := "1ms";
     now_RFC3339 := "2024-01-01T00:00:00Z";
     now_Unix := 1704067200;
     Format_RFC3339 := fun _ => "1970-01-01T00:00:01Z";
     InsertOne := fun _ _ => Some "insert failed";
     json_Marshal := fun m => (bd_Request m ++ "|" ++ bd_Response m)%string;
     ENVIRONMENT := "development";
     zap_S := MkSugared "global" [] |}.

(** The same server behind a connection that takes five bytes and then
    breaks, one more byte going out with each later write. *)
Definition rt_broken : Runtime :=
  {| tokenListContainsValue := tokenListContainsValue rt;
     conn_accept := fun s p =>
       if (length s + length p <=? 5)%nat then (length p, None)
       else (1%nat, Some "write: broken pipe");
     HTTPErrorHandler := HTTPErrorHandler rt;
     RealIP := RealIP rt;
     QueryString := QueryString rt;
     Sprint_Header := Sprint_Header rt;
     Form_Encode := Form_Encode rt;
     latency := latency rt;
     now_RFC3339 := now_RFC3339 rt;
     now_Unix := now_Unix rt;
     Format_RFC3339 := Format_RFC3339 rt;
     InsertOne := InsertOne rt;
     json_Marshal := json_Marshal rt;
     ENVIRONMENT := ENVIRONMENT rt;
     zap_S := zap_S rt |}.

Definition span : SpanContext :=
  {| TraceID := [x01; x02; x03; x04; x05; x06; x07; x08;
                 x08; x07; x06; x05; x04; x03; x02; x01];
     SpanID := [x01; x02; x03; x04; x05; x06; x07; x08] |}.

Definition req (target : string) (headers : Header) (body : list (list byte))
    (ctx : Context) : Request :=
  {| Method := "POST"; RequestURI := target; Host := "example.local";
     RemoteAddr := "10.0.0.1:4000"; Proto := "HTTP/1.1";
     ReqHeader := headers; Form := ∅;
     Body := IO.stream_of body; ReqContext := ctx |}.

(** A context fresh from the router. *)
Definition ctx (r : Request) (route : string) : State :=
  {| request := r; res_Writer := Conn; res_Status := 0; res_Header := ∅;
     path := route; ParamValues := ["123"]; store := ∅;
     sent := []; buffers := []; entries := []; global_entries := [];
     goroutines := []; inserts := []; span_attrs := [] |}.


(** [c.String(code, body)]: set the status and write the body. *)
Definition reply (rt : Runtime) (code : Z) (body : string) : HandlerFunc :=
  fun c => (None, snd (Response_Write rt (bytes body) (set_Status code c))).

(** The exchanges used below: an ordinary request with a two-chunk body,
    a health check, a websocket handshake, and a request that carries a
    request ID while the response already has another one. *)
Definition ordinary : State :=
  ctx (req "/test/123" ∅ [bytes "req-"; bytes "body"] Background) "/test/:id".

Definition health : State := ctx (req "/healthz" ∅ [] Background) "/healthz".

(** A health check whose body stream fails after three bytes. *)
Definition unreadable : State :=
  set_request
    (set_Body (IO.Chunk (bytes "par") (IO.Failing "read failed")) (request health))
    health.

Definition traced : State :=
  ctx (req "/test/123" ∅ [] (ContextWithSpanContext Background span)) "/test/:id".


Definition upgrade_headers : Header :=
  <["Connection" := ["upgrade"]]> (<["Upgrade" := ["websocket"]]> ∅).

Definition handshake : State := ctx (req "/ws" upgrade_headers [] Background) "/ws".

Definition health_handshake : State :=
  ctx (req "/healthz" upgrade_headers [] Background) "/healthz".


Definition coll : Collection := {| coll_name := "logs" |}.

(** A JSON object spread over three lines with a tab, a carriage return
    and two newlines, and the same object on one line. *)
Definition dump_in : list byte :=
  [x7b; x0a; x09; x22; x61; x22; x3a; x31; x0d; x0a; x7d].

Definition dump_out : list byte := [x7b; x22; x61; x22; x3a; x31; x7d].

(** The server with a store that takes every insert. *)
Definition rt_stored : Runtime :=
  {| tokenListContainsValue := tokenListContainsValue rt;
     conn_accept := conn_accept rt;
     HTTPErrorHandler := HTTPErrorHandler rt;
     RealIP := RealIP rt;
     QueryString := QueryString rt;
     Sprint_Header := Sprint_Header rt;
     Form_Encode := Form_Encode rt;
     latency := latency rt;
     now_RFC3339 := now_RFC3339 rt;
     now_Unix := now_Unix rt;
     Format_RFC3339 := Format_RFC3339 rt;
     InsertOne := fun _ _ => None;
     json_Marshal := json_Marshal rt;
     ENVIRONMENT := ENVIRONMENT rt;
     zap_S := zap_S rt |}.

(** A handler that fails without writing. *)
Definition failing : HandlerFunc := fun c => (Some "handler failed", c).

(** A request with a valid span whose body arrives in two chunks. *)
Definition traced_post : State :=
  ctx (req "/test/123" ∅ [bytes "req-"; bytes "body"]
         (ContextWithSpanContext Background span)) "/test/:id".

End Demo.

(** * Properties *)

Section Properties.

Variable rt : Runtime.

(** ** Readers and the request body *)

Lemma ReadAll_stream_of (chunks : list (list byte)) :
  IO.ReadAll (IO.stream_of chunks) = (concat chunks, None).
Proof.
  induction chunks as [|ch chunks IH]; simpl; [reflexivity|].
  now rewrite IH.
Qed.

Lemma ReadAll_NewBuffer (b : list byte) : IO.ReadAll (IO.NewBuffer b) = (b, None).
Proof.
  destruct b as [|x b]; simpl; [reflexivity|].
  now rewrite app_nil_r.
Qed.

Lemma readAndResetBody_stream (req : Request) (chunks : list (list byte)) :
  Body req = IO.stream_of chunks ->
  readAndResetBody req
  = ((concat chunks, None), set_Body (IO.NewBuffer (concat chunks)) req).
Proof.
  intros HB. unfold readAndResetBody.
  now rewrite HB, ReadAll_stream_of.
Qed.

Lemma IsWebSocketUpgrade_header (r r' : Request) :
  ReqHeader r = ReqHeader r' -> IsWebSocketUpgrade rt r = IsWebSocketUpgrade rt r'.
Proof. unfold IsWebSocketUpgrade. now intros ->. Qed.

(** What [ZapLogger_enter] does to an ordinary request whose body can be
    read: the body is replaced by a buffer over its bytes, a fresh capture
    buffer is allocated and the tee over the previous writer is
    installed. *)
Lemma ZapLogger_enter_ok (c : State) (b : list byte) :
  IsWebSocketUpgrade rt (request c) = false ->
  IO.ReadAll (Body (request c)) = (b, None) ->
  ZapLogger_enter rt c
  = ((b, length (buffers c)), None,
     set_Writer
       (responseWriter (MultiWriter (res_Writer c) (Buffer (length (buffers c))))
          (res_Writer c))
       (set_buffers (buffers c ++ [[]])
          (set_request (set_Body (IO.NewBuffer b) (request c)) c))).
Proof.
  intros Hup Hread. unfold ZapLogger_enter, readAndResetBody.
  rewrite Hup, Hread. simpl.
  rewrite (IsWebSocketUpgrade_header _ (request c)) by reflexivity.
  now rewrite Hup.
Qed.

Lemma ZapLogger_enter_fail (c : State) (b : list byte) (e : error) :
  IsWebSocketUpgrade rt (request c) = false ->
  IO.ReadAll (Body (request c)) = (b, Some e) ->
  ZapLogger_enter rt c
  = (([], 0%nat), Some e, set_request (set_Body (IO.drained (Body (request c))) (request c)) c).
Proof.
  intros Hup Hread. unfold ZapLogger_enter, readAndResetBody.
  now rewrite Hup, Hread.
Qed.

(** C1.  Whatever chunks the inbound body stream delivers,
    [readAndResetBody] returns their concatenation without error and
    leaves a body that reads back as exactly those bytes; and the state on
    which [ZapLogger] calls the downstream handler carries a body that
    reads as the original bytes, whether the request went through the
    capture or, being a protocol upgrade, was passed through. *)
Theorem readAndResetBody_roundtrip (collection : option Collection)
    (next : HandlerFunc) (c : State) (chunks : list (list byte)) :
  let bs := concat chunks in
  let req := set_Body (IO.stream_of chunks) (request c) in
  readAndResetBody req = ((bs, None), set_Body (IO.NewBuffer bs) req)
  /\ IO.ReadAll (Body (snd (readAndResetBody req))) = (bs, None)
  /\ exists c1 : State,
       IO.ReadAll (Body (request c1)) = (bs, None)
       /\ (ZapLogger rt collection next (set_request req c) = next c1
           \/ ZapLogger rt collection next (set_request req c)
              = ZapLogger_leave rt collection bs (length (buffers c)) (next c1)).
Proof.
  intros bs req.
  assert (Hrr : readAndResetBody req = ((bs, None), set_Body (IO.NewBuffer bs) req))
    by (apply readAndResetBody_stream; reflexivity).
  split; [exact Hrr|]. split.
  { rewrite Hrr. simpl. apply ReadAll_NewBuffer. }
  unfold ZapLogger.
  destruct (IsWebSocketUpgrade rt (request (set_request req c))) eqn:Hup.
  - exists (set_request req c). split; [|now left].
    simpl. apply ReadAll_stream_of.
  - rewrite (ZapLogger_enter_ok _ bs Hup) by (simpl; apply ReadAll_stream_of).
    eexists. split; [|right; reflexivity].
    simpl. apply ReadAll_NewBuffer.
Qed.

(** ** The tee *)

Lemma Write_res_Writer (w : Writer) (p : list byte) (c : State) :
  res_Writer (snd (Write rt w p c)) = res_Writer c.
Proof.
  revert c. induction w as [|a|w1 IH1 w2 IH2|w IHw w' _]; intros c; simpl.
  - destruct (conn_accept rt (sent c) p) as [k e]. reflexivity.
  - reflexivity.
  - specialize (IH1 c).
    destruct (Write rt w1 p c) as [[n e] c1]. simpl in IH1.
    destruct e; [exact IH1|].
    destruct (negb (n =? length p)%nat); [exact IH1|].
    specialize (IH2 c1).
    destruct (Write rt w2 p c1) as [[n2 e2] c2]. simpl in IH2.
    destruct e2; [|destruct (negb (n2 =? length p)%nat)]; simpl; congruence.
  - apply IHw.
Qed.

(** One accepted write through the tee over the connection. *)
Lemma tee_Write_accepted (a : nat) (p b : list byte) (c : State) (k : nat) :
  conn_accept rt (sent c) p = (k, None) ->
  (length p <= k)%nat ->
  buffers c !! a = Some b ->
  let w := responseWriter (MultiWriter Conn (Buffer a)) Conn in
  let r := Write rt w p c in
  fst r = (length p, None)
  /\ sent (snd r) = sent c ++ p
  /\ buffers (snd r) !! a = Some (b ++ p).
Proof.
  intros Hacc Hk Hb. simpl. rewrite Hacc.
  replace (Nat.min k (length p)) with (length p) by lia.
  rewrite Nat.eqb_refl. simpl.
  rewrite firstn_all.
  split; [reflexivity|]. split; [reflexivity|].
  rewrite list_lookup_alter_eq, Hb. reflexivity.
Qed.

Lemma write_all_tee (a : nat) (ps : list (list byte)) :
  forall (c : State) (b : list byte),
    res_Writer c = responseWriter (MultiWriter Conn (Buffer a)) Conn ->
    buffers c !! a = Some b ->
    accepts rt (sent c) ps = true ->
    sent (write_all rt ps c) = sent c ++ concat ps
    /\ buffers (write_all rt ps c) !! a = Some (b ++ concat ps).
Proof.
  induction ps as [|p ps IH]; intros c b Hw Hb Hacc; simpl.
  - now rewrite !app_nil_r.
  - simpl in Hacc.
    destruct (conn_accept rt (sent c) p) as [k [e|]] eqn:Hk; [discriminate|].
    apply andb_true_iff in Hacc as [Hle Hrest].
    apply Nat.leb_le in Hle.
    destruct (tee_Write_accepted a p b c k Hk Hle Hb) as (_ & Hs & Hbuf).
    unfold write_all in *. simpl.
    set (c' := snd (Write rt (responseWriter (MultiWriter Conn (Buffer a)) Conn) p c)) in *.
    assert (Hc : snd (Response_Write rt p c) = c')
      by (unfold Response_Write; rewrite Hw; reflexivity).
    rewrite Hc.
    assert (Hw' : res_Writer c' = responseWriter (MultiWriter Conn (Buffer a)) Conn).
    { unfold c'. rewrite Write_res_Writer. exact Hw. }
    rewrite <- Hs in Hrest.
    destruct (IH c' (b ++ p) Hw' Hbuf Hrest) as [IHs IHb].
    rewrite IHs, IHb, Hs, <- !app_assoc. split; reflexivity.
Qed.

Lemma write_all_res_Writer (ps : list (list byte)) (c : State) :
  res_Writer (write_all rt ps c) = res_Writer c.
Proof.
  revert c. induction ps as [|p ps IH]; intros c; [reflexivity|].
  unfold write_all in *. simpl. rewrite IH.
  unfold Response_Write. apply Write_res_Writer.
Qed.

(** One write through the tee that the connection does not take in full,
    or takes with an error: the write reports an error and the capture
    buffer stays as it was. *)
Lemma tee_Write_refused (a : nat) (p : list byte) (c : State) :
  accepts rt (sent c) [p] = false ->
  let w := responseWriter (MultiWriter Conn (Buffer a)) Conn in
  let r := Write rt w p c in
  snd (fst r) <> None /\ buffers (snd r) = buffers c.
Proof.
  intros Hacc. simpl in *.
  destruct (conn_accept rt (sent c) p) as [k [e|]]; simpl.
  - split; [discriminate | reflexivity].
  - rewrite andb_true_r in Hacc. apply Nat.leb_gt in Hacc.
    replace (Nat.min k (length p)) with k by lia.
    destruct (Nat.eqb_spec k (length p)) as [Heq|Hne]; [lia|]. simpl.
    split; [discriminate | reflexivity].
Qed.

(** C2, as the code has it.  On an ordinary request served straight on
    the connection, for every sequence of writes that the connection
    takes in full and without error, the bytes the client has received
    grow by exactly the bytes written, in order, and the capture buffer
    holds exactly the same bytes.  A further write that the connection
    does not take in full, or takes with an error, reports an error to
    the handler and is not captured: [io.MultiWriter] stops at the first
    writer that fails. *)
Theorem tee_duplicates_accepted_writes (c : State) (b : list byte)
    (ps : list (list byte)) :
  res_Writer c = Conn ->
  IsWebSocketUpgrade rt (request c) = false ->
  IO.ReadAll (Body (request c)) = (b, None) ->
  accepts rt (sent c) ps = true ->
  let r := ZapLogger_enter rt c in
  let resBody := snd (fst (fst r)) in
  let c2 := write_all rt ps (snd r) in
  snd (fst r) = None
  /\ res_Writer (snd r) = responseWriter (MultiWriter Conn (Buffer resBody)) Conn
  /\ sent c2 = sent c ++ concat ps
  /\ Buffer_bytes resBody c2 = concat ps
  /\ (forall p : list byte,
        accepts rt (sent c2) [p] = false ->
        snd (fst (Response_Write rt p c2)) <> None
        /\ Buffer_bytes resBody (snd (Response_Write rt p c2)) = concat ps).
Proof.
  intros HW Hup Hread Hacc r resBody c2.
  unfold c2, resBody, r. rewrite (ZapLogger_enter_ok c b Hup Hread). simpl.
  rewrite HW. split; [reflexivity|]. split; [reflexivity|].
  match goal with |- context [write_all rt ps ?s] => set (c1 := s) end.
  assert (Hw1 : res_Writer c1
                = responseWriter (MultiWriter Conn (Buffer (length (buffers c)))) Conn)
    by reflexivity.
  assert (Hb1 : buffers c1 !! length (buffers c) = Some [])
    by (unfold c1; simpl; apply list_lookup_middle; reflexivity).
  destruct (write_all_tee (length (buffers c)) ps c1 [] Hw1 Hb1 Hacc) as [Hs Hb].
  assert (HB : Buffer_bytes (length (buffers c)) (write_all rt ps c1) = concat ps)
    by (unfold Buffer_bytes; rewrite Hb; reflexivity).
  split; [exact Hs|]. split; [exact HB|].
  intros p Hp. unfold Response_Write.
  rewrite write_all_res_Writer, Hw1.
  destruct (tee_Write_refused (length (buffers c)) p (write_all rt ps c1) Hp) as [He Hbuf].
  split; [exact He|].
  unfold Buffer_bytes in *. rewrite Hbuf. exact HB.
Qed.

(** ** Severity *)

(** C3.  The classification is a function of the status alone, defined
    on every integer; its four bands cover every status and do not
    overlap, each maps to the stated level and message, and the boundary
    values fall in the band they start. *)
Theorem classify_bands (n : Z) :
  ((500 <= n)%Z -> classify n = (ErrorLevel, "Server error"))
  /\ ((400 <= n < 500)%Z -> classify n = (WarnLevel, "Client error"))
  /\ ((300 <= n < 400)%Z -> classify n = (InfoLevel, "Redirection"))
  /\ ((n < 300)%Z -> classify n = (InfoLevel, "Success"))
  /\ ((500 <= n)%Z \/ (400 <= n < 500)%Z \/ (300 <= n < 400)%Z \/ (n < 300)%Z)
  /\ classify 300 = (InfoLevel, "Redirection")
  /\ classify 400 = (WarnLevel, "Client error")
  /\ classify 500 = (ErrorLevel, "Server error")
  /\ classify 599 = (ErrorLevel, "Server error")
  /\ classify 200 = (InfoLevel, "Success")
  /\ classify 101 = (InfoLevel, "Success").
Proof.
  unfold classify.
  repeat split; try reflexivity; try lia; intros H;
    repeat match goal with
      | |- context [(?a <=? ?b)%Z] => destruct (Z.leb_spec a b); try lia
      end; reflexivity.
Qed.

(** ** [ZapLogger] *)

Lemma ZapLogger_upgrade (collection : option Collection) (next : HandlerFunc) (c : State) :
  IsWebSocketUpgrade rt (request c) = true ->
  ZapLogger rt collection next c = next c.
Proof. intros H. unfold ZapLogger. now rewrite H. Qed.

Lemma ZapLogger_ordinary (collection : option Collection) (next : HandlerFunc)
    (c : State) (b : list byte) :
  IsWebSocketUpgrade rt (request c) = false ->
  IO.ReadAll (Body (request c)) = (b, None) ->
  ZapLogger rt collection next c
  = ZapLogger_leave rt collection b (length (buffers c))
      (next (snd (ZapLogger_enter rt c))).
Proof.
  intros Hup Hread. unfold ZapLogger.
  rewrite Hup, (ZapLogger_enter_ok c b Hup Hread). reflexivity.
Qed.

Lemma ZapLogger_body_error (collection : option Collection) (next : HandlerFunc)
    (c : State) (b : list byte) (e : error) :
  IsWebSocketUpgrade rt (request c) = false ->
  IO.ReadAll (Body (request c)) = (b, Some e) ->
  ZapLogger rt collection next c
  = (Some e, set_request (set_Body (IO.drained (Body (request c))) (request c)) c).
Proof.
  intros Hup Hread. unfold ZapLogger.
  rewrite Hup, (ZapLogger_enter_fail c b e Hup Hread). reflexivity.
Qed.

Lemma ZapLogger_leave_suppressed (collection : option Collection) (bb : list byte)
    (rb : nat) (r : option error * State) :
  suppressed (handled rt r) = true ->
  ZapLogger_leave rt collection bb rb r = (None, handled rt r).
Proof.
  unfold suppressed, ZapLogger_leave. intros H. now rewrite H.
Qed.

Lemma ZapLogger_leave_logged (collection : option Collection) (bb : list byte)
    (rb : nat) (r : option error * State) :
  suppressed (handled rt r) = false ->
  ZapLogger_leave rt collection bb rb r
  = (None, logged collection (log_fields rt bb rb (handled rt r)) (handled rt r)).
Proof.
  unfold suppressed, ZapLogger_leave, logged. intros H. rewrite H.
  destruct collection; reflexivity.
Qed.

Lemma suppressed_true (c : State) :
  suppressed c = true <-> path c = "/healthz" /\ res_Status c = 200%Z.
Proof.
  unfold suppressed. rewrite andb_true_iff, String.eqb_eq, Z.eqb_eq. reflexivity.
Qed.

Lemma suppressed_false (c : State) :
  suppressed c = false <-> ~ (path c = "/healthz" /\ res_Status c = 200%Z).
Proof.
  rewrite <- suppressed_true. destruct (suppressed c); split; congruence.
Qed.

(** C4, as the code has it.  When the exchange ends on the path
    /healthz with status 200, the middleware returns it as the handler
    left it: no log call, no goroutine, no insert.  On an ordinary
    request whose body was read and that ends on /healthz with any other
    status, the middleware makes exactly one log call, at the level and
    with the message of the status.  A protocol upgrade is handed to the
    handler and its result returned as it is, and a request whose body
    cannot be read is refused before the handler runs, both without a log
    call, whatever the path and the status. *)
Theorem healthz_gate (collection : option Collection) (next : HandlerFunc)
    (c : State) (b : list byte) :
  (IsWebSocketUpgrade rt (request c) = true ->
   ZapLogger rt collection next c = next c)
  /\ (forall e : error,
        IsWebSocketUpgrade rt (request c) = false ->
        IO.ReadAll (Body (request c)) = (b, Some e) ->
        let out := ZapLogger rt collection next c in
        fst out = Some e
        /\ entries (snd out) = entries c
        /\ goroutines (snd out) = goroutines c
        /\ inserts (snd out) = inserts c)
  /\ (IsWebSocketUpgrade rt (request c) = false ->
      IO.ReadAll (Body (request c)) = (b, None) ->
      let c3 := handled rt (next (snd (ZapLogger_enter rt c))) in
      let out := ZapLogger rt collection next c in
      path c3 = "/healthz" ->
      (res_Status c3 = 200%Z ->
         out = (None, c3)
         /\ entries (snd out) = entries c3
         /\ goroutines (snd out) = goroutines c3
         /\ inserts (snd out) = inserts c3)
      /\ (res_Status c3 <> 200%Z ->
            entries (snd out)
            = entries c3
              ++ [mkEntry (fst (classify (res_Status c3))) (snd (classify (res_Status c3)))
                    (log_fields rt b (length (buffers c)) c3)])).
Proof.
  split; [apply ZapLogger_upgrade|]. split.
  - intros e Hup Hread out. unfold out.
    rewrite (ZapLogger_body_error collection next c b e Hup Hread).
    repeat split.
  - intros Hup Hread c3 out Hpath. unfold out.
    rewrite (ZapLogger_ordinary collection next c b Hup Hread). fold c3.
    split; intros Hst.
    + rewrite ZapLogger_leave_suppressed; [now repeat split|].
      apply suppressed_true. split; assumption.
    + rewrite ZapLogger_leave_logged by (apply suppressed_false; tauto).
      fold c3. unfold logged. destruct collection; reflexivity.
Qed.

(** C6, as the code has it.  A protocol-upgrade request is handed to the
    downstream handler as it came and the handler's result is returned as
    it is: no body is captured, no buffer is allocated, and the
    middleware makes no log call and starts no goroutine. *)
Theorem upgrade_passes_through (collection : option Collection) (next : HandlerFunc)
    (c : State) :
  IsWebSocketUpgrade rt (request c) = true ->
  let out := ZapLogger rt collection next c in
  out = next c
  /\ entries (snd out) = entries (snd (next c))
  /\ goroutines (snd out) = goroutines (snd (next c))
  /\ buffers (snd out) = buffers (snd (next c)).
Proof.
  intros Hup out. unfold out. rewrite (ZapLogger_upgrade collection next c Hup).
  repeat split.
Qed.

(** ** Persistence *)

Lemma persist_failed (t : Task) (c : State) (coll : Collection) (e : error) :
  task_collection t = Some coll ->
  InsertOne rt coll (zapFieldsToMap rt (task_fields t)) = Some e ->
  persist rt t c
  = log_call ErrorLevel "Error while inserting log to mongo" [zap.Error e]
      (set_inserts (inserts c ++ [(coll, zapFieldsToMap rt (task_fields t))]) c).
Proof.
  intros Hc He. unfold persist, mongoInsertFunc. now rewrite Hc, He.
Qed.

(** C7.  On an exchange that is logged, with a collection configured
    and a store that answers the insert with an error (a missed deadline
    being one): the middleware returns nil, has made the request's log
    call and started one goroutine; the goroutine makes one [InsertOne]
    call and one log call, at error level, carrying the store error, on
    the same logger, starts nothing more, and leaves the request's log
    line, the status and the bytes sent as they were.  With a nil
    collection the middleware returns nil as well, makes the same log
    call and starts no goroutine. *)
Theorem persistence_failure_isolated (coll : Collection) (next : HandlerFunc)
    (c : State) (b : list byte) (e : error) :
  IsWebSocketUpgrade rt (request c) = false ->
  IO.ReadAll (Body (request c)) = (b, None) ->
  let c3 := handled rt (next (snd (ZapLogger_enter rt c))) in
  let fields := log_fields rt b (length (buffers c)) c3 in
  let line :=
    mkEntry (fst (classify (res_Status c3))) (snd (classify (res_Status c3))) fields in
  let out := ZapLogger rt (Some coll) next c in
  let out0 := ZapLogger rt None next c in
  let task := mkTask (Some coll) fields in
  let c5 := persist rt task (snd out) in
  suppressed c3 = false ->
  InsertOne rt coll (zapFieldsToMap rt fields) = Some e ->
  (fst out = None
   /\ entries (snd out) = entries c3 ++ [line]
   /\ goroutines (snd out) = goroutines c3 ++ [task]
   /\ inserts (snd out) = inserts c3)
  /\ (entries c5 = entries c3 ++ [line; insert_failure e]
      /\ inserts c5 = inserts c3 ++ [(coll, zapFieldsToMap rt fields)]
      /\ goroutines c5 = goroutines (snd out)
      /\ res_Status c5 = res_Status c3
      /\ sent c5 = sent c3)
  /\ (goroutines c3 = [] ->
        entries (run_goroutines rt (snd out)) = entries c3 ++ [line; insert_failure e]
        /\ inserts (run_goroutines rt (snd out))
           = inserts c3 ++ [(coll, zapFieldsToMap rt fields)]
        /\ goroutines (run_goroutines rt (snd out)) = [])
  /\ (fst out0 = None
      /\ entries (snd out0) = entries c3 ++ [line]
      /\ goroutines (snd out0) = goroutines c3
      /\ inserts (snd out0) = inserts c3
      /\ (goroutines c3 = [] ->
            entries (run_goroutines rt (snd out0)) = entries c3 ++ [line]
            /\ inserts (run_goroutines rt (snd out0)) = inserts c3)).
Proof.
  intros Hup Hread c3 fields line out out0 task c5 Hsup He.
  assert (Hout : out = (None, logged (Some coll) fields c3)).
  { unfold out. rewrite (ZapLogger_ordinary (Some coll) next c b Hup Hread).
    fold c3. now rewrite ZapLogger_leave_logged. }
  assert (Hout0 : out0 = (None, logged None fields c3)).
  { unfold out0. rewrite (ZapLogger_ordinary None next c b Hup Hread).
    fold c3. now rewrite ZapLogger_leave_logged. }
  assert (Hc5 : c5 = log_call ErrorLevel "Error while inserting log to mongo" [zap.Error e]
                       (set_inserts (inserts (snd out) ++ [(coll, zapFieldsToMap rt fields)])
                          (snd out))).
  { unfold c5. apply persist_failed; [reflexivity | exact He]. }
  split; [|split; [|split]].
  - rewrite Hout. repeat split.
  - rewrite Hc5, Hout. simpl. rewrite <- app_assoc. repeat split.
  - intros Hnil. rewrite Hout. unfold run_goroutines, logged. simpl.
    rewrite Hnil. simpl.
    rewrite (persist_failed task _ coll e eq_refl He). simpl.
    rewrite <- app_assoc. repeat split.
  - rewrite Hout0. simpl. do 4 (split; [reflexivity|]).
    intros Hnil. unfold run_goroutines. simpl. rewrite Hnil. split; reflexivity.
Qed.

(** ** Request identifiers *)


Lemma c_Get_c_Set_eq (k : string) (v : any) (c : State) : c_Get k (c_Set k v c) = v.
Proof. unfold c_Get, c_Set. simpl. now rewrite lookup_insert_eq. Qed.

Lemma c_Get_c_Set_ne (k k' : string) (v : any) (c : State) :
  k <> k' -> c_Get k' (c_Set k v c) = c_Get k' c.
Proof. intros H. unfold c_Get, c_Set. simpl. now rewrite lookup_insert_ne. Qed.

(** The state on which [LoggerWithContext] calls the next handler. *)
Lemma LoggerWithContext_next (next : HandlerFunc) (c : State) :
  let sc := SpanFromContext (ReqContext (request c)) in
  let traceID := if IsValid sc then hex (TraceID sc) else "" in
  let spanID := if IsValid sc then hex (SpanID sc) else "" in
  let logger :=
    zap.With (zap_S rt)
      [("trace_id", traceID); ("span_id", spanID); ("request_id", response_first c)] in
  exists c' : State,
    LoggerWithContext rt next c = next c'
    /\ c_Get loggerContextKey c' = LoggerPtr logger
    /\ c_Get traceIDContextKey c' = Str traceID
    /\ c_Get spanIDContextKey c' = Str spanID
    /\ c_Get requestIDContextKey c' = Str (response_first c)
    /\ Value (ReqContext (request c')) loggerContextKey = LoggerPtr logger
    /\ Value (ReqContext (request c')) traceIDContextKey = Str traceID
    /\ Value (ReqContext (request c')) spanIDContextKey = Str spanID
    /\ Value (ReqContext (request c')) requestIDContextKey = Str (response_first c).
Proof.
  intros sc traceID spanID logger.
  unfold LoggerWithContext. fold sc.
  unfold traceID, spanID, logger, response_first.
  destruct (IsValid sc); eexists; (split; [reflexivity|]);
    repeat split; try reflexivity.
  all: unfold c_Get, c_Set; simpl;
    repeat (rewrite lookup_insert_ne by discriminate);
    rewrite lookup_insert_eq; reflexivity.
Qed.


(** ** The correlation context store *)

Lemma hex_nonempty (id : list byte) : id_IsValid id = true -> hex id <> "".
Proof.
  destruct id as [|b id]; simpl; [discriminate|]. intros _. discriminate.
Qed.

(** C8.  On the state that [LoggerWithContext] hands to the next
    handler: without a valid span the trace and span accessors of both
    kinds return the empty string; with a valid span they return the
    hexadecimal trace and span IDs, which are not empty; in both cases
    each request-scoped accessor and its context-scoped twin return the
    same value.  On any state or context in which a key is not bound,
    the accessor of that key returns the empty string, or the global
    logger for the logger key. *)
Theorem LoggerWithContext_accessors (next : HandlerFunc) (c : State) :
  let sc := SpanFromContext (ReqContext (request c)) in
  (exists c' : State,
     LoggerWithContext rt next c = next c'
     /\ (IsValid sc = false ->
         GetTraceID c' = "" /\ GetSpanID c' = ""
         /\ GetTraceIDFromContext (ReqContext (request c')) = ""
         /\ GetSpanIDFromContext (ReqContext (request c')) = "")
     /\ (IsValid sc = true ->
         GetTraceID c' = hex (TraceID sc) /\ GetSpanID c' = hex (SpanID sc)
         /\ GetTraceID c' <> "" /\ GetSpanID c' <> "")
     /\ GetTraceIDFromContext (ReqContext (request c')) = GetTraceID c'
     /\ GetSpanIDFromContext (ReqContext (request c')) = GetSpanID c'
     /\ GetRequestIDFromContext (ReqContext (request c')) = GetRequestID c'
     /\ GetLoggerFromContext rt (ReqContext (request c')) = GetLogger rt c')
  /\ (forall c0 : State,
        (store c0 !! loggerContextKey = None -> GetLogger rt c0 = zap_S rt)
        /\ (store c0 !! traceIDContextKey = None -> GetTraceID c0 = "")
        /\ (store c0 !! spanIDContextKey = None -> GetSpanID c0 = "")
        /\ (store c0 !! requestIDContextKey = None -> GetRequestID c0 = ""))
  /\ (forall ctx0 : Context,
        (Value ctx0 loggerContextKey = Nil -> GetLoggerFromContext rt ctx0 = zap_S rt)
        /\ (Value ctx0 traceIDContextKey = Nil -> GetTraceIDFromContext ctx0 = "")
        /\ (Value ctx0 spanIDContextKey = Nil -> GetSpanIDFromContext ctx0 = "")
        /\ (Value ctx0 requestIDContextKey = Nil -> GetRequestIDFromContext ctx0 = "")).
Proof.
  intros sc. split; [|split].
  - destruct (LoggerWithContext_next next c)
      as (c' & Hn & Hl & Ht & Hs & Hr & Hcl & Hct & Hcs & Hcr).
    fold sc in Hl, Ht, Hs, Hcl, Hct, Hcs.
    exists c'. split; [exact Hn|].
    unfold GetTraceID, GetSpanID, GetRequestID, GetLogger, GetTraceIDFromContext,
      GetSpanIDFromContext, GetRequestIDFromContext, GetLoggerFromContext.
    rewrite Hl, Ht, Hs, Hr, Hcl, Hct, Hcs, Hcr. simpl.
    split; [|split].
    + intros Hv. rewrite Hv. repeat split.
    + intros Hv. rewrite Hv.
      unfold IsValid in Hv. apply andb_true_iff in Hv as [Hvt Hvs].
      repeat split; auto using hex_nonempty.
    + repeat split.
  - intros c0.
    unfold GetTraceID, GetSpanID, GetRequestID, GetLogger, c_Get.
    repeat split; intros ->; reflexivity.
  - intros ctx0.
    unfold GetTraceIDFromContext, GetSpanIDFromContext, GetRequestIDFromContext,
      GetLoggerFromContext.
    repeat split; intros ->; reflexivity.
Qed.

(** ** The body dump *)

Lemma prefix_char (ch a : ascii) (tl : string) :
  String.prefix (String ch "") (String a tl) = Ascii.eqb ch a.
Proof.
  simpl. destruct (ascii_dec ch a) as [->|Hne].
  - rewrite Ascii.eqb_refl. now destruct tl.
  - symmetry. now apply Ascii.eqb_neq.
Qed.

(** Replacing a one-character string by the empty string removes the
    occurrences of that character and nothing else. *)
Lemma ReplaceAll_char (ch : ascii) (l : list byte) :
  ReplaceAll (string_of_list_byte l) (String ch "") ""
  = string_of_list_byte
      (List.filter (fun b => negb (Ascii.eqb ch (ascii_of_byte b))) l).
Proof.
  unfold ReplaceAll.
  induction l as [|x l IH]; [reflexivity|].
  change (string_of_list_byte (x :: l))
    with (String (ascii_of_byte x) (string_of_list_byte l)).
  cbn [ReplaceAll_from List.filter]. rewrite prefix_char.
  destruct (Ascii.eqb ch (ascii_of_byte x)); cbn [negb].
  - simpl. exact IH.
  - change (string_of_list_byte (x :: ?t))
      with (String (ascii_of_byte x) (string_of_list_byte t)).
    now rewrite IH.
Qed.

Lemma filter_twice {A : Type} (p q : A -> bool) (l : list A) :
  List.filter p (List.filter q l) = List.filter (fun x => q x && p x) l.
Proof.
  induction l as [|x l IH]; [reflexivity|].
  simpl. destruct (q x); simpl; [destruct (p x)|]; now rewrite IH.
Qed.

Lemma filter_controls (l : list byte) :
  List.filter (fun b => negb (Ascii.eqb (ascii_of_nat 9) (ascii_of_byte b)))
    (List.filter (fun b => negb (Ascii.eqb (ascii_of_nat 13) (ascii_of_byte b)))
       (List.filter (fun b => negb (Ascii.eqb (ascii_of_nat 10) (ascii_of_byte b))) l))
  = List.filter (fun b => negb (is_control b)) l.
Proof.
  rewrite !filter_twice. apply filter_ext.
  intros b. destruct b; reflexivity.
Qed.

Lemma sanitize_three_passes (body : list byte) :
  ReplaceAll (ReplaceAll (ReplaceAll (string_of_list_byte body) LF "") CR "") TAB ""
  = sanitized body.
Proof.
  unfold LF, CR, TAB, sanitized.
  rewrite !ReplaceAll_char. now rewrite filter_controls.
Qed.

(** C9.  [BodyDump] leaves the log untouched when the environment is
    production or the path is /healthz, whatever the status; otherwise it
    makes exactly one call on the global logger, whose message renders a
    record that carries the two bodies without their newline, carriage
    return and tab bytes, every other byte kept in order.  The body
    of the specification's example loses exactly its five control
    bytes. *)
Theorem BodyDump_policy (c : State) (reqBody resBody : list byte) :
  (ENVIRONMENT rt = "production" \/ path c = "/healthz" ->
   BodyDump rt c reqBody resBody = c)
  /\ (ENVIRONMENT rt <> "production" -> path c <> "/healthz" ->
      BodyDump rt c reqBody resBody
      = set_global_entries
          (global_entries c
           ++ [mkEntry InfoLevel
                 ("Body dump: "
                  ++ json_Marshal rt
                       {| bd_Host := Host (request c);
                          bd_Path := path c;
                          bd_Method := Method (request c);
                          bd_RemoteAddress := RemoteAddr (request c);
                          bd_Header := Sprint_Header rt (ReqHeader (request c));
                          bd_Status := res_Status c;
                          bd_Request := sanitized reqBody;
                          bd_Response := sanitized resBody |})
                 []]) c)
  /\ sanitized Demo.dump_in = string_of_list_byte Demo.dump_out.
Proof.
  split; [|split].
  - unfold BodyDump. intros [He|Hp].
    + rewrite He. reflexivity.
    + rewrite Hp. simpl. now rewrite andb_false_r.
  - intros He Hp. unfold BodyDump.
    apply String.eqb_neq in He, Hp. rewrite He, Hp. simpl.
    now rewrite !sanitize_three_passes.
  - reflexivity.
Qed.

(** ** The persisted document *)

Lemma zapFieldsToMap_snoc (fields : list Field) (field : Field) :
  zapFieldsToMap rt (fields ++ [field])
  = <[Key field := field_value rt field]> (zapFieldsToMap rt fields).
Proof. unfold zapFieldsToMap. now rewrite foldl_snoc. Qed.

Lemma zapFieldsToMap_lookup (fields : list Field) (field : Field) :
  NoDup (map Key fields) ->
  In field fields ->
  zapFieldsToMap rt fields !! Key field = Some (field_value rt field).
Proof.
  induction fields as [|x fields IH] using rev_ind; intros Hnd Hin; [destruct Hin|].
  rewrite zapFieldsToMap_snoc.
  rewrite map_app in Hnd. simpl in Hnd.
  apply NoDup_app in Hnd as (Hnd1 & Hdisj & _).
  apply in_app_or in Hin as [Hin|[->|[]]].
  - rewrite lookup_insert_ne; [now apply IH|].
    intros Heq. apply (Hdisj (Key x)).
    + rewrite Heq. apply list_elem_of_In, in_map, Hin.
    + left.
  - apply lookup_insert_eq.
Qed.



End Properties.

(** * The properties on concrete exchanges *)

(** A closed fact about a concrete exchange is settled by running the
    model. *)
Ltac by_evaluation := vm_compute; first [reflexivity | discriminate].


(** C1 on a body that arrives in two chunks. *)
Example readAndResetBody_two_chunks :
  fst (readAndResetBody (request Demo.ordinary)) = (Demo.bytes "req-body", None)
  /\ IO.ReadAll (Body (snd (readAndResetBody (request Demo.ordinary))))
     = (Demo.bytes "req-body", None).
Proof. split; reflexivity. Qed.

(** C2 on two writes that the connection takes and a third that it
    refuses. *)
Lemma tee_duplicates_accepted_writes_witness :
  let c := Demo.ordinary in
  let ps := [Demo.bytes "he"; Demo.bytes "llo"] in
  let c2 := write_all Demo.rt_broken ps (snd (ZapLogger_enter Demo.rt_broken c)) in
  (res_Writer c = Conn
   /\ IsWebSocketUpgrade Demo.rt_broken (request c) = false
   /\ IO.ReadAll (Body (request c)) = (Demo.bytes "req-body", None)
   /\ accepts Demo.rt_broken (sent c) ps = true
   /\ accepts Demo.rt_broken (sent c2) [Demo.bytes "!"] = false)
  /\ sent c2 = Demo.bytes "hello"
  /\ Buffer_bytes 0 c2 = Demo.bytes "hello"
  /\ snd (fst (Response_Write Demo.rt_broken (Demo.bytes "!") c2)) <> None
  /\ Buffer_bytes 0 (snd (Response_Write Demo.rt_broken (Demo.bytes "!") c2))
     = Demo.bytes "hello".
Proof.
  intros c ps c2.
  assert (H1 : res_Writer c = Conn) by reflexivity.
  assert (H2 : IsWebSocketUpgrade Demo.rt_broken (request c) = false)
    by by_evaluation.
  assert (H3 : IO.ReadAll (Body (request c)) = (Demo.bytes "req-body", None))
    by reflexivity.
  assert (H4 : accepts Demo.rt_broken (sent c) ps = true) by reflexivity.
  assert (H5 : accepts Demo.rt_broken (sent c2) [Demo.bytes "!"] = false)
    by by_evaluation.
  split; [repeat split; assumption|].
  destruct (tee_duplicates_accepted_writes Demo.rt_broken c (Demo.bytes "req-body") ps
              H1 H2 H3 H4) as (_ & _ & Hs & Hb & Hrefused).
  destruct (Hrefused (Demo.bytes "!") H5) as [He Hkeep].
  split; [exact Hs|]. split; [exact Hb|]. split; [exact He | exact Hkeep].
Defined.

(** C2 as stated fails: when the connection breaks during the second of
    two writes, the client has received a byte of it, the capture buffer
    holds nothing of it, and so the buffer holds neither what the handler
    wrote nor what the client received. *)
Lemma tee_misses_refused_write :
  let c := Demo.ordinary in
  let ps := [Demo.bytes "hello"; Demo.bytes "wo"] in
  let r := ZapLogger_enter Demo.rt_broken c in
  let c2 := write_all Demo.rt_broken ps (snd r) in
  res_Writer (snd r) = responseWriter (MultiWriter Conn (Buffer 0)) Conn
  /\ sent c2 = Demo.bytes "hellow"
  /\ Buffer_bytes 0 c2 = Demo.bytes "hello"
  /\ Buffer_bytes 0 c2 <> concat ps
  /\ Buffer_bytes 0 c2 <> sent c2.
Proof.
  vm_compute. repeat split; discriminate.
Qed.

(** C3 on one status of each band. *)
Lemma classify_bands_witness :
  classify 503 = (ErrorLevel, "Server error")
  /\ classify 404 = (WarnLevel, "Client error")
  /\ classify 307 = (InfoLevel, "Redirection")
  /\ classify 201 = (InfoLevel, "Success").
Proof.
  split; [|split; [|split]].
  - apply (proj1 (classify_bands 503)). lia.
  - apply (proj1 (proj2 (classify_bands 404))). lia.
  - apply (proj1 (proj2 (proj2 (classify_bands 307)))). lia.
  - apply (proj1 (proj2 (proj2 (proj2 (classify_bands 201))))). lia.
Defined.

(** C4 on a health check answered with 200, on one answered with 503,
    on a websocket handshake and on a body that cannot be read. *)
Lemma healthz_gate_witness :
  let c := Demo.health in
  let up := Demo.reply Demo.rt 200 "ok" in
  let down := Demo.reply Demo.rt 503 "down" in
  (IsWebSocketUpgrade Demo.rt (request c) = false
   /\ IO.ReadAll (Body (request c)) = ([], None)
   /\ path (handled Demo.rt (up (snd (ZapLogger_enter Demo.rt c)))) = "/healthz"
   /\ res_Status (handled Demo.rt (up (snd (ZapLogger_enter Demo.rt c)))) = 200%Z
   /\ path (handled Demo.rt (down (snd (ZapLogger_enter Demo.rt c)))) = "/healthz"
   /\ res_Status (handled Demo.rt (down (snd (ZapLogger_enter Demo.rt c)))) <> 200%Z
   /\ IsWebSocketUpgrade Demo.rt (request Demo.health_handshake) = true
   /\ IsWebSocketUpgrade Demo.rt (request Demo.unreadable) = false
   /\ IO.ReadAll (Body (request Demo.unreadable))
      = (Demo.bytes "par", Some "read failed"))
  /\ entries (snd (ZapLogger Demo.rt (Some Demo.coll) up c)) = []
  /\ goroutines (snd (ZapLogger Demo.rt (Some Demo.coll) up c)) = []
  /\ length (entries (snd (ZapLogger Demo.rt (Some Demo.coll) down c))) = 1%nat
  /\ ZapLogger Demo.rt (Some Demo.coll) down Demo.health_handshake
     = down Demo.health_handshake
  /\ fst (ZapLogger Demo.rt (Some Demo.coll) down Demo.unreadable) = Some "read failed"
  /\ entries (snd (ZapLogger Demo.rt (Some Demo.coll) down Demo.unreadable)) = [].
Proof.
  intros c up down.
  assert (H1 : IsWebSocketUpgrade Demo.rt (request c) = false) by by_evaluation.
  assert (H2 : IO.ReadAll (Body (request c)) = ([], None)) by reflexivity.
  assert (H3 : path (handled Demo.rt (up (snd (ZapLogger_enter Demo.rt c)))) = "/healthz")
    by by_evaluation.
  assert (H4 : res_Status (handled Demo.rt (up (snd (ZapLogger_enter Demo.rt c)))) = 200%Z)
    by by_evaluation.
  assert (H5 : path (handled Demo.rt (down (snd (ZapLogger_enter Demo.rt c)))) = "/healthz")
    by by_evaluation.
  assert (H6 : res_Status (handled Demo.rt (down (snd (ZapLogger_enter Demo.rt c)))) <> 200%Z)
    by by_evaluation.
  assert (H7 : IsWebSocketUpgrade Demo.rt (request Demo.health_handshake) = true)
    by by_evaluation.
  assert (H8 : IsWebSocketUpgrade Demo.rt (request Demo.unreadable) = false)
    by by_evaluation.
  assert (H9 : IO.ReadAll (Body (request Demo.unreadable))
               = (Demo.bytes "par", Some "read failed")) by reflexivity.
  split; [repeat split; assumption|].
  destruct (healthz_gate Demo.rt (Some Demo.coll) up c []) as (_ & _ & Hup).
  destruct (healthz_gate Demo.rt (Some Demo.coll) down c []) as (_ & _ & Hdown).
  destruct (healthz_gate Demo.rt (Some Demo.coll) down Demo.health_handshake [])
    as (Hws & _ & _).
  destruct (healthz_gate Demo.rt (Some Demo.coll) down Demo.unreadable (Demo.bytes "par"))
    as (_ & Hbad & _).
  destruct (Hup H1 H2 H3) as [Hup200 _].
  destruct (Hdown H1 H2 H5) as [_ Hdown503].
  destruct (Hup200 H4) as (_ & He & Hg & _).
  destruct (Hbad "read failed" H8 H9) as (Hret & Hent & _).
  split; [rewrite He; vm_compute; reflexivity|].
  split; [rewrite Hg; vm_compute; reflexivity|].
  split; [rewrite (Hdown503 H6), length_app; vm_compute; reflexivity|].
  split; [exact (Hws H7)|].
  split; [exact Hret | exact Hent].
Defined.

(** C4 as stated fails: a websocket handshake on /healthz that is
    answered with 500 leaves no log line. *)
Lemma healthz_upgrade_not_logged :
  let out := ZapLogger Demo.rt None (Demo.reply Demo.rt 500 "no") Demo.health_handshake in
  path (snd out) = "/healthz"
  /\ res_Status (snd out) = 500%Z
  /\ entries (snd out) = []
  /\ length (entries (snd out)) <> 1%nat.
Proof.
  vm_compute. repeat split; discriminate.
Qed.



(** C6 on a websocket handshake answered with 101. *)
Lemma upgrade_passes_through_witness :
  let c := Demo.handshake in
  let next := Demo.reply Demo.rt 101 "" in
  IsWebSocketUpgrade Demo.rt (request c) = true
  /\ ZapLogger Demo.rt (Some Demo.coll) next c = next c
  /\ entries (snd (ZapLogger Demo.rt (Some Demo.coll) next c)) = entries (snd (next c)).
Proof.
  intros c next.
  assert (H1 : IsWebSocketUpgrade Demo.rt (request c) = true) by by_evaluation.
  split; [exact H1|].
  destruct (upgrade_passes_through Demo.rt (Some Demo.coll) next c H1) as (H & He & _).
  split; [exact H | exact He].
Defined.

(** C6 as stated fails: a websocket handshake that no other rule
    excludes leaves no log line, where the claim has one. *)
Lemma upgrade_not_logged :
  let out := ZapLogger Demo.rt None (Demo.reply Demo.rt 101 "") Demo.handshake in
  IsWebSocketUpgrade Demo.rt (request Demo.handshake) = true
  /\ suppressed (snd out) = false
  /\ res_Status (snd out) = 101%Z
  /\ entries (snd out) = []
  /\ length (entries (snd out)) <> 1%nat.
Proof.
  vm_compute. repeat split; discriminate.
Qed.

(** C7 on a request answered with 500 while the store refuses the
    insert. *)
Lemma persistence_failure_isolated_witness :
  let c := Demo.ordinary in
  let next := Demo.reply Demo.rt 500 "boom" in
  let c3 := handled Demo.rt (next (snd (ZapLogger_enter Demo.rt c))) in
  let fields := log_fields Demo.rt (Demo.bytes "req-body") 0 c3 in
  let out := ZapLogger Demo.rt (Some Demo.coll) next c in
  (IsWebSocketUpgrade Demo.rt (request c) = false
   /\ IO.ReadAll (Body (request c)) = (Demo.bytes "req-body", None)
   /\ suppressed c3 = false
   /\ InsertOne Demo.rt Demo.coll (zapFieldsToMap Demo.rt fields) = Some "insert failed")
  /\ fst out = None
  /\ (Message <$> entries (snd out)) = ["Server error"]
  /\ (Message <$> entries (run_goroutines Demo.rt (snd out)))
     = ["Server error"; "Error while inserting log to mongo"]
  /\ length (inserts (run_goroutines Demo.rt (snd out))) = 1%nat
  /\ goroutines (snd (ZapLogger Demo.rt None next c)) = [].
Proof.
  intros c next c3 fields out.
  assert (H1 : IsWebSocketUpgrade Demo.rt (request c) = false) by by_evaluation.
  assert (H2 : IO.ReadAll (Body (request c)) = (Demo.bytes "req-body", None))
    by reflexivity.
  assert (H3 : suppressed c3 = false) by by_evaluation.
  assert (H4 : InsertOne Demo.rt Demo.coll (zapFieldsToMap Demo.rt fields)
               = Some "insert failed") by reflexivity.
  split; [repeat split; assumption|].
  destruct (persistence_failure_isolated Demo.rt Demo.coll next c (Demo.bytes "req-body")
              "insert failed" H1 H2 H3 H4)
    as ((Hret & He & _ & _) & _ & Hrun & (_ & _ & Hg0 & _)).
  assert (Hnil : goroutines c3 = []) by by_evaluation.
  destruct (Hrun Hnil) as (Hre & Hri & _).
  split; [exact Hret|].
  split; [unfold out; rewrite He; vm_compute; reflexivity|].
  split; [unfold out; rewrite Hre; vm_compute; reflexivity|].
  split; [unfold out; rewrite Hri, length_app; vm_compute; reflexivity|].
  rewrite Hg0. exact Hnil.
Defined.

(** C8 on a request with a valid span, on one without a span, and on a
    context that no middleware has touched. *)
Lemma LoggerWithContext_accessors_witness :
  let next : HandlerFunc := fun c => (None, c) in
  (IsValid (SpanFromContext (ReqContext (request Demo.traced))) = true
   /\ IsValid (SpanFromContext (ReqContext (request Demo.ordinary))) = false
   /\ store Demo.ordinary !! traceIDContextKey = None
   /\ Value Background loggerContextKey = Nil)
  /\ GetTraceID (snd (LoggerWithContext Demo.rt next Demo.traced))
     = "01020304050607080807060504030201"
  /\ GetSpanIDFromContext
       (ReqContext (request (snd (LoggerWithContext Demo.rt next Demo.traced))))
     = "0102030405060708"
  /\ GetTraceID (snd (LoggerWithContext Demo.rt next Demo.ordinary)) = ""
  /\ GetTraceID Demo.ordinary = ""
  /\ GetLoggerFromContext Demo.rt Background = zap_S Demo.rt.
Proof.
  intros next.
  assert (H1 : IsValid (SpanFromContext (ReqContext (request Demo.traced))) = true)
    by reflexivity.
  assert (H2 : IsValid (SpanFromContext (ReqContext (request Demo.ordinary))) = false)
    by reflexivity.
  assert (H3 : store Demo.ordinary !! traceIDContextKey = None) by by_evaluation.
  assert (H4 : Value Background loggerContextKey = Nil) by reflexivity.
  split; [repeat split; assumption|].
  destruct (LoggerWithContext_accessors Demo.rt next Demo.traced)
    as ((c1 & Hn1 & _ & Hvalid & _ & Hsp & _) & _ & _).
  destruct (LoggerWithContext_accessors Demo.rt next Demo.ordinary)
    as ((c2 & Hn2 & Hinvalid & _) & Hstore & Hctx).
  assert (E1 : snd (LoggerWithContext Demo.rt next Demo.traced) = c1)
    by (rewrite Hn1; reflexivity).
  assert (E2 : snd (LoggerWithContext Demo.rt next Demo.ordinary) = c2)
    by (rewrite Hn2; reflexivity).
  destruct (Hvalid H1) as (Ht & Hs & _).
  destruct (Hinvalid H2) as (Ht0 & _).
  rewrite E1, E2.
  split; [rewrite Ht; reflexivity|].
  split; [rewrite Hsp, Hs; reflexivity|].
  split; [exact Ht0|].
  split; [exact (proj1 (proj2 (Hstore Demo.ordinary)) H3)|].
  exact (proj1 (Hctx Background) H4).
Defined.

(** C9 on the body of the specification, off production and on the
    health check. *)
Lemma BodyDump_policy_witness :
  (ENVIRONMENT Demo.rt <> "production"
   /\ path Demo.ordinary <> "/healthz"
   /\ (ENVIRONMENT Demo.rt = "production" \/ path Demo.health = "/healthz"))
  /\ (Message <$> global_entries (BodyDump Demo.rt Demo.ordinary Demo.dump_in Demo.dump_in))
     = [("Body dump: " ++ string_of_list_byte Demo.dump_out ++ "|"
         ++ string_of_list_byte Demo.dump_out)%string]
  /\ BodyDump Demo.rt Demo.health Demo.dump_in Demo.dump_in = Demo.health.
Proof.
  assert (H1 : ENVIRONMENT Demo.rt <> "production") by discriminate.
  assert (H2 : path Demo.ordinary <> "/healthz") by discriminate.
  assert (H3 : ENVIRONMENT Demo.rt = "production" \/ path Demo.health = "/healthz")
    by (right; reflexivity).
  split; [repeat split; assumption|].
  destruct (BodyDump_policy Demo.rt Demo.ordinary Demo.dump_in Demo.dump_in)
    as (_ & Hemit & _).
  destruct (BodyDump_policy Demo.rt Demo.health Demo.dump_in Demo.dump_in)
    as (Hskip & _ & _).
  split; [rewrite (Hemit H1 H2); vm_compute; reflexivity|].
  exact (Hskip H3).
Defined.



(** * Further properties of the package *)

Section More.

Variable rt : Runtime.

(** ** The request body *)

(** X1.  Capturing a readable body can be repeated: a second
    [readAndResetBody] on the request that the first one left returns the
    same bytes, again without error, and leaves the request as it is. *)
Theorem readAndResetBody_repeatable (req : Request) (b : list byte) :
  IO.ReadAll (Body req) = (b, None) ->
  fst (readAndResetBody req) = (b, None)
  /\ readAndResetBody (snd (readAndResetBody req))
     = ((b, None), snd (readAndResetBody req)).
Proof.
  intros H. unfold readAndResetBody at 1 3 4. rewrite H. simpl.
  split; [reflexivity|].
  unfold readAndResetBody. simpl. rewrite ReadAll_NewBuffer. reflexivity.
Qed.

(** X2.  When the body of an ordinary request cannot be read, the bytes
    read before the failure are dropped, the middleware returns the read
    error, and the handler has no part in the outcome: the result is the
    same for every handler, the response writer is not wrapped, no buffer
    is allocated and nothing is sent. *)
Theorem ZapLogger_unreadable_body (collection : option Collection)
    (next next' : HandlerFunc) (c : State) (b : list byte) (e : error) :
  IsWebSocketUpgrade rt (request c) = false ->
  IO.ReadAll (Body (request c)) = (b, Some e) ->
  let out := ZapLogger rt collection next c in
  fst (readAndResetBody (request c)) = ([], Some e)
  /\ out = ZapLogger rt collection next' c
  /\ fst out = Some e
  /\ res_Writer (snd out) = res_Writer c
  /\ buffers (snd out) = buffers c
  /\ sent (snd out) = sent c
  /\ res_Status (snd out) = res_Status c
  /\ ReqHeader (request (snd out)) = ReqHeader (request c).
Proof.
  intros Hup Hread out. unfold out.
  rewrite !(ZapLogger_body_error rt collection _ c b e Hup Hread).
  unfold readAndResetBody. rewrite Hread. repeat split.
Qed.

(** X3.  A handler error on an ordinary request does not become the
    result of the middleware: the error goes to the framework's error
    handler, the middleware returns nil, and the exchange is logged, or
    suppressed, by the path and the status that the error handler
    left. *)
Theorem ZapLogger_handler_error (collection : option Collection) (next : HandlerFunc)
    (c c2 : State) (b : list byte) (e : error) :
  IsWebSocketUpgrade rt (request c) = false ->
  IO.ReadAll (Body (request c)) = (b, None) ->
  next (snd (ZapLogger_enter rt c)) = (Some e, c2) ->
  let c3 := HTTPErrorHandler rt e c2 in
  let out := ZapLogger rt collection next c in
  fst out = None
  /\ (suppressed c3 = true -> snd out = c3)
  /\ (suppressed c3 = false ->
      exists fields : list Field,
        entries (snd out)
        = entries c3
          ++ [mkEntry (fst (classify (res_Status c3))) (snd (classify (res_Status c3)))
                fields]
        /\ entry_int "status" (mkEntry InfoLevel "" fields) = Some (zap.int64 (res_Status c3))).
Proof.
  intros Hup Hread Hnext c3 out. unfold out.
  rewrite (ZapLogger_ordinary rt collection next c b Hup Hread), Hnext.
  destruct (suppressed c3) eqn:Hs.
  - rewrite ZapLogger_leave_suppressed by exact Hs.
    split; [reflexivity|]. split; [reflexivity | discriminate].
  - rewrite ZapLogger_leave_logged by exact Hs.
    split; [reflexivity|]. split; [discriminate|]. intros _.
    eexists. split.
    + unfold logged. destruct collection; reflexivity.
    + reflexivity.
Qed.

(** ** The tee *)

Lemma only_io_differs_refl (c : State) : only_io_differs c c.
Proof. unfold only_io_differs. repeat split. Qed.

Lemma only_io_differs_trans (c1 c2 c3 : State) :
  only_io_differs c1 c2 -> only_io_differs c2 c3 -> only_io_differs c1 c3.
Proof.
  unfold only_io_differs.
  intros (A1 & A2 & A3 & A4 & A5 & A6 & A7 & A8 & A9 & A10 & A11 & A12)
         (B1 & B2 & B3 & B4 & B5 & B6 & B7 & B8 & B9 & B10 & B11 & B12).
  repeat split; congruence.
Qed.

Lemma Write_only_io (w : Writer) (p : list byte) (c : State) :
  only_io_differs c (snd (Write rt w p c)).
Proof.
  revert c. induction w as [|a|w1 IH1 w2 IH2|w IHw w' _]; intros c; simpl.
  - destruct (conn_accept rt (sent c) p) as [k e].
    unfold only_io_differs. simpl. repeat split.
  - unfold only_io_differs. simpl. repeat split.
  - specialize (IH1 c).
    destruct (Write rt w1 p c) as [[n e] c1]. simpl in IH1.
    destruct e; [exact IH1|].
    destruct (negb (n =? length p)%nat); [exact IH1|].
    specialize (IH2 c1).
    destruct (Write rt w2 p c1) as [[n2 e2] c2]. simpl in IH2.
    assert (H : only_io_differs c c2) by (eapply only_io_differs_trans; eassumption).
    destruct e2; [|destruct (negb (n2 =? length p)%nat)]; exact H.
  - apply IHw.
Qed.

Lemma write_all_only_io (ps : list (list byte)) (c : State) :
  only_io_differs c (write_all rt ps c).
Proof.
  revert c. induction ps as [|p ps IH]; intros c; [apply only_io_differs_refl|].
  unfold write_all in *. simpl.
  eapply only_io_differs_trans; [|apply IH].
  apply Write_only_io.
Qed.

(** One write through the tee over the connection, whatever the
    connection does with it. *)
Lemma tee_Write_step (a : nat) (p : list byte) (c : State) :
  let w := responseWriter (MultiWriter Conn (Buffer a)) Conn in
  let n := Nat.min (fst (conn_accept rt (sent c) p)) (length p) in
  sent (snd (Write rt w p c)) = sent c ++ take n p
  /\ (buffers (snd (Write rt w p c)) = buffers c
      \/ (n = length p
          /\ buffers (snd (Write rt w p c)) = alter (fun b => b ++ p) a (buffers c))).
Proof.
  simpl. destruct (conn_accept rt (sent c) p) as [k [e|]]; simpl.
  - split; [reflexivity | left; reflexivity].
  - destruct (Nat.eqb_spec (Nat.min k (length p)) (length p)) as [Heq|Hne]; simpl.
    + rewrite Nat.eqb_refl. simpl.
      split; [reflexivity | right; split; [exact Heq | reflexivity]].
    + split; [reflexivity | left; reflexivity].
Qed.

Lemma tee_transparent_from (a : nat) (ps : list (list byte)) :
  forall (ct cd : State) (bf : list byte),
    res_Writer ct = responseWriter (MultiWriter Conn (Buffer a)) Conn ->
    res_Writer cd = Conn ->
    sent ct = sent cd ->
    buffers ct !! a = Some bf ->
    sent (write_all rt ps ct) = sent (write_all rt ps cd)
    /\ exists bf' : list byte,
         buffers (write_all rt ps ct) !! a = Some bf'
         /\ (length bf' + length (sent cd)
             <= length bf + length (sent (write_all rt ps cd)))%nat.
Proof.
  induction ps as [|p ps IH]; intros ct cd bf Ht Hd Hs Hb.
  - split; [exact Hs|]. exists bf. split; [exact Hb | simpl; lia].
  - unfold write_all in *. simpl.
    destruct (tee_Write_step a p ct) as [Hsent Hbuf].
    set (ct' := snd (Write rt (responseWriter (MultiWriter Conn (Buffer a)) Conn) p ct)) in *.
    set (cd' := snd (Write rt Conn p cd)).
    assert (Ect : snd (Response_Write rt p ct) = ct')
      by (unfold Response_Write; rewrite Ht; reflexivity).
    assert (Ecd : snd (Response_Write rt p cd) = cd')
      by (unfold Response_Write; rewrite Hd; reflexivity).
    rewrite Ect, Ecd.
    assert (Hsd : sent cd' = sent cd ++ take (Nat.min (fst (conn_accept rt (sent cd) p))
                                                 (length p)) p).
    { unfold cd'. simpl. destruct (conn_accept rt (sent cd) p) as [k e]. reflexivity. }
    assert (Ht' : res_Writer ct' = responseWriter (MultiWriter Conn (Buffer a)) Conn)
      by (unfold ct'; rewrite Write_res_Writer; exact Ht).
    assert (Hd' : res_Writer cd' = Conn)
      by (unfold cd'; rewrite Write_res_Writer; exact Hd).
    assert (Hs' : sent ct' = sent cd') by (rewrite Hsent, Hsd, Hs; reflexivity).
    rewrite Hs in Hsent, Hbuf.
    set (n := Nat.min (fst (conn_accept rt (sent cd) p)) (length p)) in *.
    destruct Hbuf as [Hsame|[Hn Halt]].
    + assert (Hb' : buffers ct' !! a = Some bf) by (rewrite Hsame; exact Hb).
      destruct (IH ct' cd' bf Ht' Hd' Hs' Hb') as [IHs (bf' & IHb & IHl)].
      split; [exact IHs|]. exists bf'. split; [exact IHb|].
      rewrite Hsd, length_app in IHl. lia.
    + assert (Hb' : buffers ct' !! a = Some (bf ++ p))
        by (rewrite Halt, list_lookup_alter_eq, Hb; reflexivity).
      destruct (IH ct' cd' (bf ++ p) Ht' Hd' Hs' Hb') as [IHs (bf' & IHb & IHl)].
      split; [exact IHs|]. exists bf'. split; [exact IHb|].
      rewrite Hsd, !length_app, length_take in IHl. lia.
Qed.

(** X4.  The tee never changes what the client receives: on an ordinary
    request served on the connection, whatever the connection does with
    each write, the bytes it has taken after a sequence of writes through
    the wrapped writer are the bytes it would have taken had the same
    writes been made on the unwrapped writer; and the capture buffer never
    holds more bytes than the client has received. *)
Theorem tee_transparent (c : State) (b : list byte) (ps : list (list byte)) :
  res_Writer c = Conn ->
  IsWebSocketUpgrade rt (request c) = false ->
  IO.ReadAll (Body (request c)) = (b, None) ->
  let c1 := snd (ZapLogger_enter rt c) in
  sent (write_all rt ps c1) = sent (write_all rt ps c)
  /\ (length (Buffer_bytes (length (buffers c)) (write_all rt ps c1)) + length (sent c)
      <= length (sent (write_all rt ps c)))%nat.
Proof.
  intros HW Hup Hread c1. unfold c1.
  rewrite (ZapLogger_enter_ok rt c b Hup Hread). simpl. rewrite HW.
  match goal with |- context [write_all rt ps ?s] => set (ct := s) end.
  assert (Hb : buffers ct !! length (buffers c) = Some [])
    by (unfold ct; simpl; apply list_lookup_middle; reflexivity).
  destruct (tee_transparent_from (length (buffers c)) ps ct c [] eq_refl HW eq_refl Hb)
    as [Hs (bf' & Hbf & Hlen)].
  split; [exact Hs|].
  unfold Buffer_bytes. rewrite Hbf. simpl in *. lia.
Qed.

(** X5.  The log line of an ordinary exchange served on the connection,
    whose handler sets a status and writes chunks that the connection
    takes, and which the health-check gate does not suppress: the
    middleware returns nil, the client has received the chunks, and the
    one entry added carries the level and message of the status, the
    status, the route path, the request body as it came in and the
    response body as it went out. *)
Theorem ZapLogger_entry_of_exchange (c : State) (b : list byte) (code : Z)
    (ps : list (list byte)) :
  res_Writer c = Conn ->
  IsWebSocketUpgrade rt (request c) = false ->
  IO.ReadAll (Body (request c)) = (b, None) ->
  accepts rt (sent c) ps = true ->
  suppressed (set_Status code c) = false ->
  let out := ZapLogger rt None (respond rt code ps) c in
  fst out = None
  /\ sent (snd out) = sent c ++ concat ps
  /\ exists e : Entry,
       entries (snd out) = entries c ++ [e]
       /\ (level e, Message e) = classify code
       /\ entry_int "status" e = Some (zap.int64 code)
       /\ entry_string "path" e = Some (path c)
       /\ entry_string "body" e = Some (string_of_list_byte b)
       /\ entry_string "response" e = Some (string_of_list_byte (concat ps)).
Proof.
  intros HW Hup Hread Hacc Hsup out. unfold out.
  rewrite (ZapLogger_ordinary rt None _ c b Hup Hread).
  rewrite (ZapLogger_enter_ok rt c b Hup Hread). simpl snd.
  match goal with
  | |- context [respond rt code ps ?s] =>
      change (respond rt code ps s) with (@None error, write_all rt ps (set_Status code s));
      set (c1 := set_Status code s)
  end.
  assert (Hw1 : res_Writer c1
                = responseWriter (MultiWriter Conn (Buffer (length (buffers c)))) Conn)
    by (unfold c1; simpl; rewrite HW; reflexivity).
  assert (Hb1 : buffers c1 !! length (buffers c) = Some [])
    by (unfold c1; simpl; apply list_lookup_middle; reflexivity).
  destruct (write_all_tee rt (length (buffers c)) ps c1 [] Hw1 Hb1 Hacc) as [Hs Hb].
  destruct (write_all_only_io ps c1) as (_ & _ & Hst & _ & Hp & _ & _ & He & _).
  set (c2 := write_all rt ps c1) in *.
  assert (Hsup2 : suppressed (handled rt (None, c2)) = false).
  { simpl. unfold suppressed in *. rewrite Hp, Hst. exact Hsup. }
  rewrite (ZapLogger_leave_logged rt None b _ _ Hsup2). simpl handled.
  split; [reflexivity|]. split; [unfold logged, log_call; simpl; exact Hs|].
  eexists. split; [unfold logged, log_call; simpl; rewrite He; reflexivity|].
  split; [simpl; rewrite Hst; simpl; destruct (classify code); reflexivity|].
  split; [unfold entry_int; simpl; rewrite Hst; reflexivity|].
  split; [unfold entry_string; simpl; rewrite Hp; reflexivity|].
  split; [reflexivity|].
  unfold entry_string. simpl. unfold Buffer_bytes. rewrite Hb. reflexivity.
Qed.

(** ** The document and the goroutine *)

Lemma last_field_snoc (k : string) (fields : list Field) (x : Field) :
  last_field k (fields ++ [x])
  = if String.eqb (Key x) k then Some x else last_field k fields.
Proof. unfold last_field. rewrite rev_app_distr. reflexivity. Qed.

Lemma zapFieldsToMap_lookup_last (fields : list Field) (k : string) :
  zapFieldsToMap rt fields !! k = field_value rt <$> last_field k fields.
Proof.
  induction fields as [|x fields IH] using rev_ind; [reflexivity|].
  rewrite zapFieldsToMap_snoc, last_field_snoc.
  destruct (String.eqb_spec (Key x) k) as [<-|Hne].
  - now rewrite lookup_insert_eq.
  - rewrite lookup_insert_ne by exact Hne. exact IH.
Qed.

Lemma last_field_None (fields : list Field) (k : string) :
  last_field k fields = None <-> ~ In k (map Key fields).
Proof.
  induction fields as [|x fields IH] using rev_ind; [simpl; tauto|].
  rewrite last_field_snoc, map_app, in_app_iff. simpl.
  destruct (String.eqb_spec (Key x) k) as [<-|Hne].
  - split; [discriminate | tauto].
  - rewrite IH. tauto.
Qed.

Lemma zapFieldsToMap_size_le (fields : list Field) :
  (size (zapFieldsToMap rt fields) <= length fields)%nat.
Proof.
  induction fields as [|x fields IH] using rev_ind; [reflexivity|].
  rewrite zapFieldsToMap_snoc, map_size_insert, length_app. simpl.
  destruct (zapFieldsToMap rt fields !! Key x); simpl; lia.
Qed.

Lemma zapFieldsToMap_size_NoDup (fields : list Field) :
  NoDup (map Key fields) -> size (zapFieldsToMap rt fields) = length fields.
Proof.
  induction fields as [|x fields IH] using rev_ind; intros Hnd; [reflexivity|].
  rewrite map_app in Hnd. simpl in Hnd.
  apply NoDup_app in Hnd as (Hnd1 & Hdisj & _).
  rewrite zapFieldsToMap_snoc, length_app. simpl.
  rewrite map_size_insert_None; [rewrite IH by exact Hnd1; lia|].
  rewrite zapFieldsToMap_lookup_last.
  assert (Hnone : last_field (Key x) fields = None).
  { apply last_field_None. intros Hin.
    apply (Hdisj (Key x)); [now apply list_elem_of_In | left]. }
  now rewrite Hnone.
Qed.

(** X6.  In the document built by [zapFieldsToMap], a key stands for the
    last field that carries it, a key that no field carries is absent, and
    the document has at most as many keys as the record has fields, as
    many exactly when the keys are distinct; the empty record gives the
    empty document. *)
Theorem zapFieldsToMap_last_wins (fields : list Field) (k : string) :
  zapFieldsToMap rt fields !! k = field_value rt <$> last_field k fields
  /\ (zapFieldsToMap rt fields !! k = None <-> ~ In k (map Key fields))
  /\ (size (zapFieldsToMap rt fields) <= length fields)%nat
  /\ (NoDup (map Key fields) -> size (zapFieldsToMap rt fields) = length fields)
  /\ zapFieldsToMap rt [] = ∅.
Proof.
  split; [apply zapFieldsToMap_lookup_last|].
  split.
  { rewrite zapFieldsToMap_lookup_last, <- last_field_None.
    destruct (last_field k fields); simpl; split; congruence. }
  split; [apply zapFieldsToMap_size_le|].
  split; [apply zapFieldsToMap_size_NoDup | reflexivity].
Qed.

Lemma log_fields_keys (bb : list byte) (rb : nat) (c : State) :
  map Key (log_fields rt bb rb c)
  = ["status"; "latency"; "request_id"; "trace_id"; "span_id"; "time"; "timestamp";
     "method"; "uri"; "host"; "remote_ip"; "header"; "path"; "query"; "form";
     "param"; "body"; "user_agent"; "referer"; "request_proto"; "response"].
Proof. reflexivity. Qed.

Lemma log_fields_NoDup (bb : list byte) (rb : nat) (c : State) :
  NoDup (map Key (log_fields rt bb rb c)).
Proof.
  rewrite log_fields_keys. apply (bool_decide_unpack _). vm_compute. exact I.
Qed.

(** X7.  The document that [ZapLogger] hands to the store for a logged
    exchange has the twenty-one keys of the log line; the status is the
    64-bit integer of the response status, the timestamp the 64-bit
    integer of the clock, and every other value a string, the body and
    the response among them as captured.  When the store takes it, the
    goroutine makes this one insert and no log call. *)
Theorem persisted_document (coll : Collection) (next : HandlerFunc)
    (c : State) (b : list byte) :
  IsWebSocketUpgrade rt (request c) = false ->
  IO.ReadAll (Body (request c)) = (b, None) ->
  let c3 := handled rt (next (snd (ZapLogger_enter rt c))) in
  let fields := log_fields rt b (length (buffers c)) c3 in
  let doc := zapFieldsToMap rt fields in
  let fin := run_goroutines rt (snd (ZapLogger rt (Some coll) next c)) in
  suppressed c3 = false ->
  goroutines c3 = [] ->
  InsertOne rt coll doc = None ->
  inserts fin = inserts c3 ++ [(coll, doc)]
  /\ entries fin
     = entries c3
       ++ [mkEntry (fst (classify (res_Status c3))) (snd (classify (res_Status c3))) fields]
  /\ goroutines fin = []
  /\ size doc = 21%nat
  /\ doc !! "status" = Some (DInt64 (zap.int64 (res_Status c3)))
  /\ doc !! "timestamp" = Some (DInt64 (now_Unix rt))
  /\ doc !! "body" = Some (DString (string_of_list_byte b))
  /\ doc !! "response"
     = Some (DString (string_of_list_byte (Buffer_bytes (length (buffers c)) c3)))
  /\ (forall (k : string) (v : DocValue),
        doc !! k = Some v ->
        (exists s : string, v = DString s)
        \/ ((k = "status" \/ k = "timestamp") /\ exists z : Z, v = DInt64 z)).
Proof.
  intros Hup Hread c3 fields doc fin Hsup Hnil Hins.
  assert (Hout : ZapLogger rt (Some coll) next c = (None, logged (Some coll) fields c3)).
  { rewrite (ZapLogger_ordinary rt (Some coll) next c b Hup Hread).
    fold c3. now rewrite ZapLogger_leave_logged. }
  assert (Hlook : forall f, In f fields -> doc !! Key f = Some (field_value rt f)).
  { intros f Hf. apply zapFieldsToMap_lookup; [apply log_fields_NoDup | exact Hf]. }
  split; [|split; [|split]].
  - unfold fin. rewrite Hout. unfold run_goroutines, logged. simpl. rewrite Hnil. simpl.
    unfold persist, mongoInsertFunc. simpl. fold fields doc. rewrite Hins. reflexivity.
  - unfold fin. rewrite Hout. unfold run_goroutines, logged. simpl. rewrite Hnil. simpl.
    unfold persist, mongoInsertFunc. simpl. fold fields doc. rewrite Hins. reflexivity.
  - unfold fin. rewrite Hout. unfold run_goroutines, logged. simpl. rewrite Hnil. simpl.
    unfold persist, mongoInsertFunc. simpl. fold fields doc. rewrite Hins. reflexivity.
  - split; [apply (zapFieldsToMap_size_NoDup fields), log_fields_NoDup|].
    split; [apply (Hlook (zap.Int "status" (res_Status c3))); left; reflexivity|].
    split.
    { apply (Hlook (zap.Int64 "timestamp" (now_Unix rt))).
      do 6 right. left. reflexivity. }
    split.
    { apply (Hlook (zap.String "body" (string_of_list_byte b))).
      do 16 right. left. reflexivity. }
    split.
    { apply (Hlook (zap.String "response"
                      (string_of_list_byte (Buffer_bytes (length (buffers c)) c3)))).
      do 20 right. left. reflexivity. }
    intros k v Hk. unfold doc in Hk. rewrite zapFieldsToMap_lookup_last in Hk.
    destruct (last_field k fields) as [f|] eqn:Hf; [|discriminate].
    injection Hk as <-.
    apply find_some in Hf as [Hin Hkey].
    apply String.eqb_eq in Hkey. subst k.
    apply in_rev in Hin. unfold fields, log_fields in Hin.
    repeat (destruct Hin as [<-|Hin];
            [first [ left; eexists; reflexivity
                   | right; split; [tauto | eexists; reflexivity] ]|]).
    destruct Hin.
Qed.

(** ** Severity *)

(** X8.  The severity never decreases with the status: a higher status
    is never logged at a lower level, a log call is never below the info
    level, and it is at the error level exactly from status 500 on. *)
Theorem classify_monotone (n m : Z) :
  (n <= m)%Z ->
  (Level_value (fst (classify n)) <= Level_value (fst (classify m)))%Z
  /\ (0 <= Level_value (fst (classify n)))%Z
  /\ (fst (classify n) = ErrorLevel <-> (500 <= n)%Z).
Proof.
  intros Hle. unfold classify.
  repeat match goal with
    | |- context [(?a <=? ?b)%Z] => destruct (Z.leb_spec a b)
    end; simpl; repeat split; try lia; try discriminate; try reflexivity.
Qed.

(** ** One log line, one goroutine *)

(** X9.  On an ordinary request whose body was read, the middleware
    adds at most one entry to the log and starts at most one goroutine;
    it starts one only together with an entry and only with a collection
    that is not nil, and the goroutine's fields are the fields of the
    entry; the middleware itself makes no insert. *)
Theorem ZapLogger_one_line_one_goroutine (collection : option Collection)
    (next : HandlerFunc) (c : State) (b : list byte) :
  IsWebSocketUpgrade rt (request c) = false ->
  IO.ReadAll (Body (request c)) = (b, None) ->
  let c3 := handled rt (next (snd (ZapLogger_enter rt c))) in
  let out := ZapLogger rt collection next c in
  exists (es : list Entry) (ts : list Task),
    entries (snd out) = entries c3 ++ es
    /\ goroutines (snd out) = goroutines c3 ++ ts
    /\ inserts (snd out) = inserts c3
    /\ (length ts <= length es <= 1)%nat
    /\ (collection = None -> ts = [])
    /\ (suppressed c3 = true -> es = [])
    /\ Forall (fun t => task_collection t = collection
                        /\ task_collection t <> None
                        /\ (Fields <$> es) = [task_fields t]) ts.
Proof.
  intros Hup Hread c3 out. unfold out.
  rewrite (ZapLogger_ordinary rt collection next c b Hup Hread). fold c3.
  destruct (suppressed c3) eqn:Hs.
  - rewrite ZapLogger_leave_suppressed by exact Hs.
    exists [], []. simpl. rewrite !app_nil_r.
    repeat split; try reflexivity; try lia. constructor.
  - rewrite ZapLogger_leave_logged by exact Hs.
    eexists [_]. unfold logged. destruct collection as [cl|]; simpl.
    + eexists [_]. repeat split; try reflexivity; try lia; try discriminate.
      constructor; [|constructor]. simpl. repeat split. discriminate.
    + exists []. rewrite app_nil_r.
      repeat split; try reflexivity; try (simpl; lia); try discriminate. constructor.
Qed.

(** X10.  The body of the goroutine changes nothing but the log and the
    record of inserts.  With a nil collection it makes no insert and logs
    the error of the nil guard; with a collection it makes exactly one
    insert, of the document of its fields, and logs one error entry
    exactly when the store answers with an error. *)
Theorem persist_outcome (t : Task) (s : State) :
  let s' := persist rt t s in
  let doc := zapFieldsToMap rt (task_fields t) in
  (request s' = request s /\ res_Status s' = res_Status s /\ sent s' = sent s
   /\ buffers s' = buffers s /\ goroutines s' = goroutines s
   /\ global_entries s' = global_entries s)
  /\ (task_collection t = None ->
      inserts s' = inserts s
      /\ entries s' = entries s ++ [insert_failure "collection is nil"])
  /\ (forall cl : Collection,
        task_collection t = Some cl ->
        inserts s' = inserts s ++ [(cl, doc)]
        /\ entries s'
           = entries s
             ++ match InsertOne rt cl doc with
                | Some e => [insert_failure e]
                | None => []
                end).
Proof.
  intros s' doc. unfold s', doc, persist, mongoInsertFunc.
  destruct (task_collection t) as [cl|]; simpl.
  - destruct (InsertOne rt cl _) eqn:Hi; simpl.
    + split; [repeat split|]. split; [discriminate|].
      intros cl' [= <-]. rewrite Hi. split; reflexivity.
    + split; [repeat split|]. split; [discriminate|].
      intros cl' [= <-]. rewrite Hi, app_nil_r. split; reflexivity.
  - split; [repeat split|]. split; [split; reflexivity|]. discriminate.
Qed.

(** X11.  Two copies of the middleware, one around the other, log an
    ordinary exchange twice, and both entries carry the whole request
    body: the body that the outer copy installed is read to the end by
    the inner copy and installed again. *)
Theorem ZapLogger_stacked (coll1 coll2 : option Collection) (next : HandlerFunc)
    (c : State) (b : list byte) :
  IsWebSocketUpgrade rt (request c) = false ->
  IO.ReadAll (Body (request c)) = (b, None) ->
  let c1 := snd (ZapLogger_enter rt c) in
  let c2 := snd (ZapLogger_enter rt c1) in
  let c3 := handled rt (next c2) in
  suppressed c3 = false ->
  IO.ReadAll (Body (request c2)) = (b, None)
  /\ exists e1 e2 : Entry,
       entries (snd (ZapLogger rt coll1 (ZapLogger rt coll2 next) c))
       = entries c3 ++ [e1; e2]
       /\ entry_string "body" e1 = Some (string_of_list_byte b)
       /\ entry_string "body" e2 = Some (string_of_list_byte b)
       /\ (level e1, Message e1) = (level e2, Message e2).
Proof.
  intros Hup Hread c1 c2 c3 Hsup.
  assert (Hup1 : IsWebSocketUpgrade rt (request c1) = false).
  { unfold c1. rewrite (ZapLogger_enter_ok rt c b Hup Hread). simpl.
    rewrite (IsWebSocketUpgrade_header rt _ (request c)) by reflexivity. exact Hup. }
  assert (Hread1 : IO.ReadAll (Body (request c1)) = (b, None)).
  { unfold c1. rewrite (ZapLogger_enter_ok rt c b Hup Hread). simpl.
    apply ReadAll_NewBuffer. }
  split.
  { unfold c2. rewrite (ZapLogger_enter_ok rt c1 b Hup1 Hread1). simpl.
    apply ReadAll_NewBuffer. }
  rewrite (ZapLogger_ordinary rt coll1 _ c b Hup Hread). fold c1.
  rewrite (ZapLogger_ordinary rt coll2 next c1 b Hup1 Hread1). fold c2 c3.
  rewrite (ZapLogger_leave_logged rt coll2 b _ (next c2)) by exact Hsup. fold c3.
  match goal with
  | |- context [ZapLogger_leave rt coll1 b ?a (None, ?L)] =>
      assert (HsL : suppressed (handled rt (None, L)) = false)
  end.
  { simpl. unfold suppressed, logged in *. destruct coll2; simpl; exact Hsup. }
  rewrite ZapLogger_leave_logged by exact HsL. simpl handled.
  eexists _, _. split.
  - unfold logged. destruct coll1, coll2; simpl; rewrite <- app_assoc; reflexivity.
  - split; [reflexivity|]. split; [reflexivity|].
    unfold logged. destruct coll2; reflexivity.
Qed.

(** ** The logger context *)

Lemma LoggerWithContext_pass (next : HandlerFunc) (c : State) :
  LoggerWithContext rt next c = next (snd (LoggerWithContext rt pass c)).
Proof.
  unfold LoggerWithContext.
  destruct (IsValid (SpanFromContext (ReqContext (request c)))); reflexivity.
Qed.

Lemma LoggerWithContext_keeps_span (c : State) :
  SpanFromContext (ReqContext (request (snd (LoggerWithContext rt pass c))))
  = SpanFromContext (ReqContext (request c)).
Proof.
  unfold LoggerWithContext, pass.
  destruct (IsValid (SpanFromContext (ReqContext (request c)))); reflexivity.
Qed.

(** X12.  [LoggerWithContext] changes nothing but the four bindings: on
    the state it hands to the handler, the request but for its context,
    the response, the log, the connection and the active span are as
    before, and every other key of the context store and of the request
    context reads as before. *)
Theorem LoggerWithContext_frame (next : HandlerFunc) (c : State) :
  let c' := snd (LoggerWithContext rt pass c) in
  LoggerWithContext rt next c = next c'
  /\ (set_request (request c) (set_store (store c) c') = c)
  /\ request c' = WithContext (request c) (ReqContext (request c'))
  /\ SpanFromContext (ReqContext (request c')) = SpanFromContext (ReqContext (request c))
  /\ (forall k : string,
        ~ In k bound_keys ->
        c_Get k c' = c_Get k c
        /\ Value (ReqContext (request c')) k = Value (ReqContext (request c)) k).
Proof.
  intros c'. split; [apply LoggerWithContext_pass|].
  unfold c', LoggerWithContext, pass.
  destruct (IsValid (SpanFromContext (ReqContext (request c)))).
  all: split; [destruct c as [[]]; reflexivity|].
  all: split; [reflexivity|]. all: split; [reflexivity|].
  all: intros k Hk; unfold bound_keys in Hk; simpl in Hk.
  all: assert (H1 : loggerContextKey <> k) by tauto.
  all: assert (H2 : traceIDContextKey <> k) by tauto.
  all: assert (H3 : spanIDContextKey <> k) by tauto.
  all: assert (H4 : requestIDContextKey <> k) by tauto.
  all: split;
    [ unfold c_Get, c_Set; cbn -[String.eqb];
      now rewrite !lookup_insert_ne by assumption
    | apply String.eqb_neq in H1, H2, H3, H4; cbn -[String.eqb];
      now rewrite H1, H2, H3, H4 ].
Qed.

(** X13.  The logger that [LoggerWithContext] binds is the global logger
    with three fields added, trace_id, span_id and request_id in this
    order, and their values are the ones that the three identifier
    accessors return. *)
Theorem LoggerWithContext_logger_fields (c : State) :
  let c' := snd (LoggerWithContext rt pass c) in
  GetLogger rt c'
  = zap.With (zap_S rt)
      [("trace_id", GetTraceID c'); ("span_id", GetSpanID c');
       ("request_id", GetRequestID c')]
  /\ GetRequestID c' = response_first c.
Proof.
  intros c'.
  destruct (LoggerWithContext_next rt pass c)
    as (c0 & Hn & Hl & Ht & Hs & Hr & _).
  assert (E : c' = c0) by (unfold c'; rewrite Hn; reflexivity).
  unfold GetLogger, GetTraceID, GetSpanID, GetRequestID.
  rewrite E, Hl, Ht, Hs, Hr. split; reflexivity.
Qed.

(** X14.  Running [LoggerWithContext] a second time, around itself,
    binds the same values again: every accessor returns on the state of
    the second run what it returns on the state of the first. *)
Theorem LoggerWithContext_twice (next : HandlerFunc) (c : State) :
  let c1 := snd (LoggerWithContext rt pass c) in
  let c2 := snd (LoggerWithContext rt pass c1) in
  LoggerWithContext rt (LoggerWithContext rt next) c = next c2
  /\ GetLogger rt c2 = GetLogger rt c1
  /\ GetTraceID c2 = GetTraceID c1
  /\ GetSpanID c2 = GetSpanID c1
  /\ GetRequestID c2 = GetRequestID c1
  /\ GetLoggerFromContext rt (ReqContext (request c2))
     = GetLoggerFromContext rt (ReqContext (request c1))
  /\ GetTraceIDFromContext (ReqContext (request c2))
     = GetTraceIDFromContext (ReqContext (request c1))
  /\ GetSpanIDFromContext (ReqContext (request c2))
     = GetSpanIDFromContext (ReqContext (request c1))
  /\ GetRequestIDFromContext (ReqContext (request c2))
     = GetRequestIDFromContext (ReqContext (request c1)).
Proof.
  intros c1 c2.
  split; [rewrite LoggerWithContext_pass; fold c1; apply LoggerWithContext_pass|].
  destruct (LoggerWithContext_next rt pass c)
    as (a1 & Hn1 & Hl1 & Ht1 & Hs1 & Hr1 & Hcl1 & Hct1 & Hcs1 & Hcr1).
  assert (E1 : c1 = a1) by (unfold c1; rewrite Hn1; reflexivity).
  destruct (LoggerWithContext_next rt pass c1)
    as (a2 & Hn2 & Hl2 & Ht2 & Hs2 & Hr2 & Hcl2 & Hct2 & Hcs2 & Hcr2).
  assert (E2 : c2 = a2) by (unfold c2; rewrite Hn2; reflexivity).
  pose proof (LoggerWithContext_keeps_span c) as Hspan.
  fold c1 in Hspan.
  assert (Hrf : response_first c1 = response_first c).
  { unfold c1, response_first, LoggerWithContext, pass.
    destruct (IsValid (SpanFromContext (ReqContext (request c)))); reflexivity. }
  rewrite Hspan in Hl2, Ht2, Hs2, Hcl2, Hct2, Hcs2.
  rewrite Hrf in Hl2, Hr2, Hcl2, Hcr2.
  unfold GetLogger, GetTraceID, GetSpanID, GetRequestID, GetLoggerFromContext,
    GetTraceIDFromContext, GetSpanIDFromContext, GetRequestIDFromContext.
  rewrite E2, Hl2, Ht2, Hs2, Hr2, Hcl2, Hct2, Hcs2, Hcr2.
  rewrite E1, Hl1, Ht1, Hs1, Hr1, Hcl1, Hct1, Hcs1, Hcr1.
  repeat split.
Qed.

(** X15.  [OtelLoggerMiddleware] sets the request.id attribute on the
    span, once, exactly when the span is valid, binds the request ID in
    the request context only, and leaves the context store alone: the
    context-scoped accessor returns the resolved ID while the
    request-scoped accessor returns what it returned before; the
    bindings of the other keys and the span are as before. *)
Theorem OtelLoggerMiddleware_effect (next : HandlerFunc) (c : State) :
  let c' := snd (OtelLoggerMiddleware pass c) in
  OtelLoggerMiddleware next c = next c'
  /\ span_attrs c'
     = span_attrs c
       ++ (if IsValid (SpanFromContext (ReqContext (request c)))
           then [(RequestIDAttribute, response_first c)] else [])
  /\ GetRequestIDFromContext (ReqContext (request c')) = response_first c
  /\ store c' = store c
  /\ GetRequestID c' = GetRequestID c
  /\ GetTraceIDFromContext (ReqContext (request c'))
     = GetTraceIDFromContext (ReqContext (request c))
  /\ GetSpanIDFromContext (ReqContext (request c'))
     = GetSpanIDFromContext (ReqContext (request c))
  /\ SpanFromContext (ReqContext (request c')) = SpanFromContext (ReqContext (request c))
  /\ entries c' = entries c /\ sent c' = sent c.
Proof.
  intros c'. unfold c', OtelLoggerMiddleware, pass, response_first.
  destruct (IsValid (SpanFromContext (ReqContext (request c)))); simpl;
    rewrite ?app_nil_r; repeat split.
Qed.

(** ** Trace identifiers in the log line *)

Lemma entry_string_trace_span (l : Level) (msg : string) (bb : list byte) (rb : nat)
    (c : State) :
  entry_string "trace_id" (mkEntry l msg (log_fields rt bb rb c))
  = Some (GetTraceIDFromContext (ReqContext (request c)))
  /\ entry_string "span_id" (mkEntry l msg (log_fields rt bb rb c))
     = Some (hex (SpanID (SpanFromContext (ReqContext (request c))))).
Proof. split; reflexivity. Qed.

(** X16.  The trace identifier of the log line is what the request
    context binds under the trace key when the handler has returned, not
    the trace of the span: when the handler leaves the request context as
    it was and nothing is bound under that key, the line carries an empty
    trace_id, valid span or not.  The span identifier is the hexadecimal
    identifier of the span in the context, which for a context without a
    span is a string of sixteen zeros and not the empty string. *)
Theorem ZapLogger_trace_fields (collection : option Collection) (next : HandlerFunc)
    (c : State) (b : list byte) :
  IsWebSocketUpgrade rt (request c) = false ->
  IO.ReadAll (Body (request c)) = (b, None) ->
  let ctx := ReqContext (request c) in
  let c3 := handled rt (next (snd (ZapLogger_enter rt c))) in
  ReqContext (request c3) = ctx ->
  suppressed c3 = false ->
  exists e : Entry,
    entries (snd (ZapLogger rt collection next c)) = entries c3 ++ [e]
    /\ entry_string "trace_id" e = Some (GetTraceIDFromContext ctx)
    /\ entry_string "span_id" e = Some (hex (SpanID (SpanFromContext ctx)))
    /\ (Value ctx traceIDContextKey = Nil -> entry_string "trace_id" e = Some "")
    /\ (SpanFromContext ctx = noSpan -> entry_string "span_id" e = Some "0000000000000000").
Proof.
  intros Hup Hread ctx c3 Hctx Hsup.
  rewrite (ZapLogger_ordinary rt collection next c b Hup Hread). fold c3.
  rewrite ZapLogger_leave_logged by exact Hsup.
  eexists. split; [unfold logged; destruct collection; reflexivity|].
  destruct (entry_string_trace_span (fst (classify (res_Status c3)))
              (snd (classify (res_Status c3))) b (length (buffers c)) c3) as [Ht Hs].
  rewrite Hctx in Ht, Hs.
  split; [exact Ht|]. split; [exact Hs|]. split.
  - intros Hnil. etransitivity; [exact Ht|].
    unfold GetTraceIDFromContext. now rewrite Hnil.
  - intros Hno. etransitivity; [exact Hs|]. now rewrite Hno.
Qed.

(** X17.  With [LoggerWithContext] between [ZapLogger] and a handler
    that leaves the request context as it got it, the log line carries
    the identifiers that [LoggerWithContext] resolved: the hexadecimal
    trace ID of a valid span, the empty string otherwise; the span_id of
    the line is the hexadecimal span ID in both cases. *)
Theorem ZapLogger_over_LoggerWithContext (collection : option Collection)
    (next : HandlerFunc) (c : State) (b : list byte) :
  IsWebSocketUpgrade rt (request c) = false ->
  IO.ReadAll (Body (request c)) = (b, None) ->
  let sc := SpanFromContext (ReqContext (request c)) in
  let c' := snd (LoggerWithContext rt pass (snd (ZapLogger_enter rt c))) in
  let c3 := handled rt (next c') in
  ReqContext (request c3) = ReqContext (request c') ->
  suppressed c3 = false ->
  exists e : Entry,
    entries (snd (ZapLogger rt collection (LoggerWithContext rt next) c))
    = entries c3 ++ [e]
    /\ entry_string "trace_id" e = Some (if IsValid sc then hex (TraceID sc) else "")
    /\ entry_string "span_id" e = Some (hex (SpanID sc))
    /\ entry_string "trace_id" e = Some (GetTraceID c').
Proof.
  intros Hup Hread sc c' c3 Hctx Hsup.
  rewrite (ZapLogger_ordinary rt collection _ c b Hup Hread).
  rewrite LoggerWithContext_pass. fold c' c3.
  rewrite ZapLogger_leave_logged by exact Hsup.
  eexists. split; [unfold logged; destruct collection; reflexivity|].
  destruct (entry_string_trace_span (fst (classify (res_Status c3)))
              (snd (classify (res_Status c3))) b (length (buffers c)) c3) as [Ht Hs].
  rewrite Hctx in Ht, Hs.
  destruct (LoggerWithContext_next rt pass (snd (ZapLogger_enter rt c)))
    as (a & Hn & _ & Hgt & _ & _ & _ & Hct & _ & _).
  assert (E : c' = a) by (unfold c'; rewrite Hn; reflexivity).
  pose proof (LoggerWithContext_keeps_span (snd (ZapLogger_enter rt c))) as Hspan.
  fold c' in Hspan.
  assert (Hsc : SpanFromContext (ReqContext (request (snd (ZapLogger_enter rt c)))) = sc)
    by (rewrite (ZapLogger_enter_ok rt c b Hup Hread); reflexivity).
  rewrite Hsc in Hspan, Hct, Hgt.
  rewrite Hspan in Hs.
  rewrite <- E in Hct, Hgt.
  unfold GetTraceIDFromContext in Ht. rewrite Hct in Ht.
  unfold GetTraceID. rewrite Hgt.
  split; [exact Ht|]. split; [exact Hs | exact Ht].
Qed.

(** ** The body dump *)

Lemma sanitized_strip (body : list byte) :
  sanitized (strip_controls body) = sanitized body.
Proof.
  unfold sanitized, strip_controls. rewrite filter_twice. f_equal.
  apply filter_ext. intros x. now destruct (negb (is_control x)).
Qed.

Lemma strip_controls_clean (body : list byte) :
  forallb (fun x => negb (is_control x)) body = true -> strip_controls body = body.
Proof.
  unfold strip_controls. induction body as [|x body IH]; [reflexivity|].
  simpl. intros H. apply andb_true_iff in H as [Hx Hb].
  rewrite Hx. now rewrite IH.
Qed.

(** X18.  Dumping bodies that have already lost their control bytes
    gives the same log as dumping the original bodies, so the dump
    cannot tell a body from its stripped form; and bodies without a
    newline, carriage return or tab are rendered byte for byte. *)
Theorem BodyDump_strips_once (c : State) (reqBody resBody : list byte) :
  BodyDump rt c (strip_controls reqBody) (strip_controls resBody)
  = BodyDump rt c reqBody resBody
  /\ (forallb (fun x => negb (is_control x)) reqBody = true ->
      forallb (fun x => negb (is_control x)) resBody = true ->
      ENVIRONMENT rt <> "production" -> path c <> "/healthz" ->
      global_entries (BodyDump rt c reqBody resBody)
      = global_entries c
        ++ [mkEntry InfoLevel
              ("Body dump: "
               ++ json_Marshal rt
                    {| bd_Host := Host (request c);
                       bd_Path := path c;
                       bd_Method := Method (request c);
                       bd_RemoteAddress := RemoteAddr (request c);
                       bd_Header := Sprint_Header rt (ReqHeader (request c));
                       bd_Status := res_Status c;
                       bd_Request := string_of_list_byte reqBody;
                       bd_Response := string_of_list_byte resBody |})
              []])
  /\ entries (BodyDump rt c reqBody resBody) = entries c
  /\ sent (BodyDump rt c reqBody resBody) = sent c.
Proof.
  split; [|split; [|split]].
  - unfold BodyDump.
    destruct (negb (ENVIRONMENT rt =? "production")%string && negb (path c =? "/healthz")%string);
      [|reflexivity].
    now rewrite !sanitize_three_passes, !sanitized_strip.
  - intros Hq Hs He Hp. unfold BodyDump.
    apply String.eqb_neq in He, Hp. rewrite He, Hp. simpl.
    rewrite !sanitize_three_passes. unfold sanitized.
    fold (strip_controls reqBody) (strip_controls resBody).
    now rewrite !strip_controls_clean by assumption.
  - unfold BodyDump.
    destruct (negb (ENVIRONMENT rt =? "production")%string && negb (path c =? "/healthz")%string);
      reflexivity.
  - unfold BodyDump.
    destruct (negb (ENVIRONMENT rt =? "production")%string && negb (path c =? "/healthz")%string);
      reflexivity.
Qed.

End More.

(** * The further properties on concrete exchanges *)

(** X1 on a body that arrives in two chunks. *)
Lemma readAndResetBody_repeatable_witness :
  let req := request Demo.ordinary in
  IO.ReadAll (Body req) = (Demo.bytes "req-body", None)
  /\ fst (readAndResetBody (snd (readAndResetBody req))) = (Demo.bytes "req-body", None).
Proof.
  intros req.
  assert (H : IO.ReadAll (Body req) = (Demo.bytes "req-body", None)) by reflexivity.
  split; [exact H|].
  destruct (readAndResetBody_repeatable req (Demo.bytes "req-body") H) as [_ H2].
  rewrite H2. reflexivity.
Defined.

(** X2 on a body that fails after three bytes, with two handlers. *)
Lemma ZapLogger_unreadable_body_witness :
  let c := Demo.unreadable in
  (IsWebSocketUpgrade Demo.rt (request c) = false
   /\ IO.ReadAll (Body (request c)) = (Demo.bytes "par", Some "read failed"))
  /\ ZapLogger Demo.rt None (Demo.reply Demo.rt 200 "ok") c
     = ZapLogger Demo.rt None Demo.failing c
  /\ fst (ZapLogger Demo.rt None (Demo.reply Demo.rt 200 "ok") c) = Some "read failed"
  /\ sent (snd (ZapLogger Demo.rt None (Demo.reply Demo.rt 200 "ok") c)) = [].
Proof.
  intros c.
  assert (H1 : IsWebSocketUpgrade Demo.rt (request c) = false) by by_evaluation.
  assert (H2 : IO.ReadAll (Body (request c)) = (Demo.bytes "par", Some "read failed"))
    by reflexivity.
  split; [split; assumption|].
  destruct (ZapLogger_unreadable_body Demo.rt None (Demo.reply Demo.rt 200 "ok")
              Demo.failing c (Demo.bytes "par") "read failed" H1 H2)
    as (_ & Heq & Hret & _ & _ & Hsent & _).
  split; [exact Heq|]. split; [exact Hret | exact Hsent].
Defined.

(** X3 on a handler that fails, under a framework that answers 500. *)
Lemma ZapLogger_handler_error_witness :
  let c := Demo.ordinary in
  let c2 := snd (ZapLogger_enter Demo.rt c) in
  (IsWebSocketUpgrade Demo.rt (request c) = false
   /\ IO.ReadAll (Body (request c)) = (Demo.bytes "req-body", None)
   /\ Demo.failing c2 = (Some "handler failed", c2)
   /\ suppressed (HTTPErrorHandler Demo.rt "handler failed" c2) = false)
  /\ fst (ZapLogger Demo.rt None Demo.failing c) = None
  /\ (Message <$> entries (snd (ZapLogger Demo.rt None Demo.failing c))) = ["Server error"].
Proof.
  intros c c2.
  assert (H1 : IsWebSocketUpgrade Demo.rt (request c) = false) by by_evaluation.
  assert (H2 : IO.ReadAll (Body (request c)) = (Demo.bytes "req-body", None))
    by reflexivity.
  assert (H3 : Demo.failing c2 = (Some "handler failed", c2)) by reflexivity.
  assert (H4 : suppressed (HTTPErrorHandler Demo.rt "handler failed" c2) = false)
    by by_evaluation.
  split; [repeat split; assumption|].
  destruct (ZapLogger_handler_error Demo.rt None Demo.failing c c2 (Demo.bytes "req-body")
              "handler failed" H1 H2 H3) as (Hret & _ & Hlog).
  split; [exact Hret|].
  destruct (Hlog H4) as (fields & He & _).
  rewrite He, fmap_app. by_evaluation.
Defined.

(** X4 on a connection that breaks during the second write. *)
Lemma tee_transparent_witness :
  let c := Demo.ordinary in
  let ps := [Demo.bytes "hello"; Demo.bytes "wo"] in
  (res_Writer c = Conn
   /\ IsWebSocketUpgrade Demo.rt_broken (request c) = false
   /\ IO.ReadAll (Body (request c)) = (Demo.bytes "req-body", None))
  /\ sent (write_all Demo.rt_broken ps (snd (ZapLogger_enter Demo.rt_broken c)))
     = Demo.bytes "hellow"
  /\ sent (write_all Demo.rt_broken ps c) = Demo.bytes "hellow".
Proof.
  intros c ps.
  assert (H1 : res_Writer c = Conn) by reflexivity.
  assert (H2 : IsWebSocketUpgrade Demo.rt_broken (request c) = false) by by_evaluation.
  assert (H3 : IO.ReadAll (Body (request c)) = (Demo.bytes "req-body", None))
    by reflexivity.
  split; [repeat split; assumption|].
  destruct (tee_transparent Demo.rt_broken c (Demo.bytes "req-body") ps H1 H2 H3)
    as [Hs _].
  assert (Hd : sent (write_all Demo.rt_broken ps c) = Demo.bytes "hellow")
    by by_evaluation.
  split; [rewrite Hs; exact Hd | exact Hd].
Defined.

(** X5 on a request answered with 201 in two chunks. *)
Lemma ZapLogger_entry_of_exchange_witness :
  let c := Demo.ordinary in
  let ps := [Demo.bytes "re"; Demo.bytes "sp"] in
  let out := ZapLogger Demo.rt None (respond Demo.rt 201 ps) c in
  (res_Writer c = Conn
   /\ IsWebSocketUpgrade Demo.rt (request c) = false
   /\ IO.ReadAll (Body (request c)) = (Demo.bytes "req-body", None)
   /\ accepts Demo.rt (sent c) ps = true
   /\ suppressed (set_Status 201 c) = false)
  /\ sent (snd out) = Demo.bytes "resp"
  /\ exists e : Entry,
       entries (snd out) = [e]
       /\ Message e = "Success"
       /\ entry_int "status" e = Some 201%Z
       /\ entry_string "body" e = Some "req-body"
       /\ entry_string "response" e = Some "resp".
Proof.
  intros c ps out.
  assert (H1 : res_Writer c = Conn) by reflexivity.
  assert (H2 : IsWebSocketUpgrade Demo.rt (request c) = false) by by_evaluation.
  assert (H3 : IO.ReadAll (Body (request c)) = (Demo.bytes "req-body", None))
    by reflexivity.
  assert (H4 : accepts Demo.rt (sent c) ps = true) by reflexivity.
  assert (H5 : suppressed (set_Status 201 c) = false) by by_evaluation.
  split; [repeat split; assumption|].
  destruct (ZapLogger_entry_of_exchange Demo.rt c (Demo.bytes "req-body") 201 ps
              H1 H2 H3 H4 H5) as (_ & Hs & e & He & Hc & Hst & _ & Hb & Hr).
  split; [exact Hs|].
  exists e. split; [exact He|].
  split; [exact (f_equal snd Hc)|].
  split; [exact Hst|]. split; [exact Hb | exact Hr].
Defined.

(** X6 on a record in which a key occurs twice. *)
Lemma zapFieldsToMap_last_wins_witness :
  let fields := [zap.String "k" "first"; zap.Int "n" 1; zap.String "k" "second"] in
  NoDup (map Key [zap.String "k" "first"; zap.Int "n" 1])
  /\ zapFieldsToMap Demo.rt fields !! "k" = Some (DString "second")
  /\ zapFieldsToMap Demo.rt fields !! "absent" = None
  /\ size (zapFieldsToMap Demo.rt [zap.String "k" "first"; zap.Int "n" 1]) = 2%nat.
Proof.
  intros fields.
  assert (H : NoDup (map Key [zap.String "k" "first"; zap.Int "n" 1])).
  { apply (bool_decide_unpack _). vm_compute. exact I. }
  split; [exact H|].
  destruct (zapFieldsToMap_last_wins Demo.rt fields "k") as (Hk & _).
  destruct (zapFieldsToMap_last_wins Demo.rt fields "absent") as (_ & Habs & _).
  destruct (zapFieldsToMap_last_wins Demo.rt [zap.String "k" "first"; zap.Int "n" 1] "k")
    as (_ & _ & _ & Hsize & _).
  split; [rewrite Hk; reflexivity|].
  split; [|exact (Hsize H)].
  apply Habs. simpl. intros [E|[E|[E|[]]]]; discriminate E.
Defined.

(** X7 on a request answered with 500 while the store takes the
    insert. *)
Lemma persisted_document_witness :
  let c := Demo.ordinary in
  let next := Demo.reply Demo.rt_stored 500 "boom" in
  let c3 := handled Demo.rt_stored (next (snd (ZapLogger_enter Demo.rt_stored c))) in
  let doc := zapFieldsToMap Demo.rt_stored (log_fields Demo.rt_stored (Demo.bytes "req-body") 0 c3) in
  let fin := run_goroutines Demo.rt_stored (snd (ZapLogger Demo.rt_stored (Some Demo.coll) next c)) in
  (IsWebSocketUpgrade Demo.rt_stored (request c) = false
   /\ IO.ReadAll (Body (request c)) = (Demo.bytes "req-body", None)
   /\ suppressed c3 = false
   /\ goroutines c3 = []
   /\ InsertOne Demo.rt_stored Demo.coll doc = None)
  /\ (Message <$> entries fin) = ["Server error"]
  /\ length (inserts fin) = 1%nat
  /\ doc !! "status" = Some (DInt64 500)
  /\ doc !! "response" = Some (DString "boom").
Proof.
  intros c next c3 doc fin.
  assert (H1 : IsWebSocketUpgrade Demo.rt_stored (request c) = false) by by_evaluation.
  assert (H2 : IO.ReadAll (Body (request c)) = (Demo.bytes "req-body", None))
    by reflexivity.
  assert (H3 : suppressed c3 = false) by by_evaluation.
  assert (H4 : goroutines c3 = []) by by_evaluation.
  assert (H5 : InsertOne Demo.rt_stored Demo.coll doc = None) by reflexivity.
  split; [repeat split; assumption|].
  destruct (persisted_document Demo.rt_stored Demo.coll next c (Demo.bytes "req-body")
              H1 H2 H3 H4 H5) as (Hi & He & _ & _ & Hst & _ & _ & Hr & _).
  split; [unfold fin; rewrite He, fmap_app; by_evaluation|].
  split; [unfold fin; rewrite Hi, length_app; by_evaluation|].
  split; [etransitivity; [exact Hst | by_evaluation]|].
  etransitivity; [exact Hr | by_evaluation].
Defined.

(** X8 on a client error and a server error. *)
Lemma classify_monotone_witness :
  (404 <= 503)%Z
  /\ (Level_value (fst (classify 404)) <= Level_value (fst (classify 503)))%Z.
Proof.
  assert (H : (404 <= 503)%Z) by lia.
  split; [exact H|]. exact (proj1 (classify_monotone 404 503 H)).
Defined.

(** X9 on a request answered with 201 with a collection configured. *)
Lemma ZapLogger_one_line_one_goroutine_witness :
  let c := Demo.ordinary in
  let next := Demo.reply Demo.rt 201 "made" in
  (IsWebSocketUpgrade Demo.rt (request c) = false
   /\ IO.ReadAll (Body (request c)) = (Demo.bytes "req-body", None))
  /\ (length (entries (snd (ZapLogger Demo.rt (Some Demo.coll) next c))) <= 1)%nat
  /\ (length (goroutines (snd (ZapLogger Demo.rt (Some Demo.coll) next c))) <= 1)%nat.
Proof.
  intros c next.
  assert (H1 : IsWebSocketUpgrade Demo.rt (request c) = false) by by_evaluation.
  assert (H2 : IO.ReadAll (Body (request c)) = (Demo.bytes "req-body", None))
    by reflexivity.
  split; [split; assumption|].
  destruct (ZapLogger_one_line_one_goroutine Demo.rt (Some Demo.coll) next c
              (Demo.bytes "req-body") H1 H2) as (es & ts & He & Hg & _ & Hlen & _).
  rewrite He, Hg, !length_app.
  assert (E0 : length (entries (handled Demo.rt (next (snd (ZapLogger_enter Demo.rt c)))))
               = 0%nat) by by_evaluation.
  assert (G0 : length (goroutines (handled Demo.rt (next (snd (ZapLogger_enter Demo.rt c)))))
               = 0%nat) by by_evaluation.
  rewrite E0, G0. simpl. split; lia.
Defined.

(** X10 on a goroutine without a collection and on one whose insert is
    refused. *)
Lemma persist_outcome_witness :
  let fields := [zap.Int "status" 200] in
  (task_collection (mkTask None fields) = None
   /\ task_collection (mkTask (Some Demo.coll) fields) = Some Demo.coll)
  /\ (Fields <$> entries (persist Demo.rt (mkTask None fields) Demo.ordinary))
     = [[zap.Error "collection is nil"]]
  /\ inserts (persist Demo.rt (mkTask None fields) Demo.ordinary) = []
  /\ length (inserts (persist Demo.rt (mkTask (Some Demo.coll) fields) Demo.ordinary)) = 1%nat.
Proof.
  intros fields.
  assert (H1 : task_collection (mkTask None fields) = None) by reflexivity.
  assert (H2 : task_collection (mkTask (Some Demo.coll) fields) = Some Demo.coll)
    by reflexivity.
  split; [split; assumption|].
  destruct (persist_outcome Demo.rt (mkTask None fields) Demo.ordinary) as (_ & Hnil & _).
  destruct (persist_outcome Demo.rt (mkTask (Some Demo.coll) fields) Demo.ordinary)
    as (_ & _ & Hsome).
  destruct (Hnil H1) as [Hi He].
  destruct (Hsome Demo.coll H2) as [Hi2 _].
  split; [rewrite He; reflexivity|].
  split; [rewrite Hi; reflexivity|].
  rewrite Hi2. reflexivity.
Defined.

(** X11 on a request answered with 200 under two copies. *)
Lemma ZapLogger_stacked_witness :
  let c := Demo.ordinary in
  let next := Demo.reply Demo.rt 200 "ok" in
  let c2 := snd (ZapLogger_enter Demo.rt (snd (ZapLogger_enter Demo.rt c))) in
  (IsWebSocketUpgrade Demo.rt (request c) = false
   /\ IO.ReadAll (Body (request c)) = (Demo.bytes "req-body", None)
   /\ suppressed (handled Demo.rt (next c2)) = false)
  /\ (entry_string "body"
        <$> entries (snd (ZapLogger Demo.rt None (ZapLogger Demo.rt None next) c)))
     = [Some "req-body"; Some "req-body"].
Proof.
  intros c next c2.
  assert (H1 : IsWebSocketUpgrade Demo.rt (request c) = false) by by_evaluation.
  assert (H2 : IO.ReadAll (Body (request c)) = (Demo.bytes "req-body", None))
    by reflexivity.
  assert (H3 : suppressed (handled Demo.rt (next c2)) = false) by by_evaluation.
  split; [repeat split; assumption|].
  destruct (ZapLogger_stacked Demo.rt None None next c (Demo.bytes "req-body") H1 H2 H3)
    as (_ & e1 & e2 & He & Hb1 & Hb2 & _).
  assert (E0 : entries (handled Demo.rt (next c2)) = []) by by_evaluation.
  unfold c2 in E0. rewrite He, E0. simpl. rewrite Hb1, Hb2. reflexivity.
Defined.

(** X12 on a key that belongs to another component. *)
Lemma LoggerWithContext_frame_witness :
  let c := c_Set "user" (Str "alice") Demo.traced in
  ~ In "user" bound_keys
  /\ c_Get "user" (snd (LoggerWithContext Demo.rt pass c)) = Str "alice"
  /\ SpanFromContext (ReqContext (request (snd (LoggerWithContext Demo.rt pass c))))
     = Demo.span.
Proof.
  intros c.
  assert (H : ~ In "user" bound_keys)
    by (simpl; intros [E|[E|[E|[E|[]]]]]; discriminate E).
  split; [exact H|].
  destruct (LoggerWithContext_frame Demo.rt pass c) as (_ & _ & _ & Hspan & Hkeys).
  destruct (Hkeys "user" H) as [Hget _].
  split; [rewrite Hget; by_evaluation | rewrite Hspan; reflexivity].
Defined.

(** X16 on a request with a valid span and nothing bound under the trace
    key, and on a request without a span. *)
Lemma ZapLogger_trace_fields_witness :
  let next := Demo.reply Demo.rt 200 "ok" in
  let traced := handled Demo.rt (next (snd (ZapLogger_enter Demo.rt Demo.traced_post))) in
  let plain := handled Demo.rt (next (snd (ZapLogger_enter Demo.rt Demo.ordinary))) in
  (IsWebSocketUpgrade Demo.rt (request Demo.traced_post) = false
   /\ IO.ReadAll (Body (request Demo.traced_post)) = (Demo.bytes "req-body", None)
   /\ ReqContext (request traced) = ReqContext (request Demo.traced_post)
   /\ suppressed traced = false
   /\ Value (ReqContext (request Demo.traced_post)) traceIDContextKey = Nil
   /\ IsWebSocketUpgrade Demo.rt (request Demo.ordinary) = false
   /\ IO.ReadAll (Body (request Demo.ordinary)) = (Demo.bytes "req-body", None)
   /\ ReqContext (request plain) = ReqContext (request Demo.ordinary)
   /\ suppressed plain = false
   /\ SpanFromContext (ReqContext (request Demo.ordinary)) = noSpan)
  /\ IsValid (SpanFromContext (ReqContext (request Demo.traced_post))) = true
  /\ (entry_string "trace_id" <$> entries (snd (ZapLogger Demo.rt None next Demo.traced_post)))
     = [Some ""]
  /\ (entry_string "span_id" <$> entries (snd (ZapLogger Demo.rt None next Demo.traced_post)))
     = [Some "0102030405060708"]
  /\ (entry_string "span_id" <$> entries (snd (ZapLogger Demo.rt None next Demo.ordinary)))
     = [Some "0000000000000000"].
Proof.
  intros next traced plain.
  assert (H1 : IsWebSocketUpgrade Demo.rt (request Demo.traced_post) = false)
    by by_evaluation.
  assert (H2 : IO.ReadAll (Body (request Demo.traced_post)) = (Demo.bytes "req-body", None))
    by reflexivity.
  assert (H3 : ReqContext (request traced) = ReqContext (request Demo.traced_post))
    by by_evaluation.
  assert (H4 : suppressed traced = false) by by_evaluation.
  assert (H5 : Value (ReqContext (request Demo.traced_post)) traceIDContextKey = Nil)
    by reflexivity.
  assert (H6 : IsWebSocketUpgrade Demo.rt (request Demo.ordinary) = false)
    by by_evaluation.
  assert (H7 : IO.ReadAll (Body (request Demo.ordinary)) = (Demo.bytes "req-body", None))
    by reflexivity.
  assert (H8 : ReqContext (request plain) = ReqContext (request Demo.ordinary))
    by by_evaluation.
  assert (H9 : suppressed plain = false) by by_evaluation.
  assert (H10 : SpanFromContext (ReqContext (request Demo.ordinary)) = noSpan)
    by reflexivity.
  split; [repeat split; assumption|].
  split; [reflexivity|].
  destruct (ZapLogger_trace_fields Demo.rt None next Demo.traced_post
              (Demo.bytes "req-body") H1 H2 H3 H4) as (e & He & _ & Hs & Ht & _).
  destruct (ZapLogger_trace_fields Demo.rt None next Demo.ordinary
              (Demo.bytes "req-body") H6 H7 H8 H9) as (e' & He' & _ & _ & _ & Hz).
  assert (E0 : entries traced = []) by by_evaluation.
  assert (E0' : entries plain = []) by by_evaluation.
  fold traced in He. fold plain in He'.
  rewrite He, He', E0, E0'. simpl.
  rewrite (Ht H5), Hs, (Hz H10). repeat split.
Defined.

(** X17 on a request with a valid span. *)
Lemma ZapLogger_over_LoggerWithContext_witness :
  let c := Demo.traced_post in
  let next := Demo.reply Demo.rt 200 "ok" in
  let c' := snd (LoggerWithContext Demo.rt pass (snd (ZapLogger_enter Demo.rt c))) in
  (IsWebSocketUpgrade Demo.rt (request c) = false
   /\ IO.ReadAll (Body (request c)) = (Demo.bytes "req-body", None)
   /\ ReqContext (request (handled Demo.rt (next c'))) = ReqContext (request c')
   /\ suppressed (handled Demo.rt (next c')) = false)
  /\ (entry_string "trace_id"
        <$> entries (snd (ZapLogger Demo.rt None (LoggerWithContext Demo.rt next) c)))
     = [Some "01020304050607080807060504030201"].
Proof.
  intros c next c'.
  assert (H1 : IsWebSocketUpgrade Demo.rt (request c) = false) by by_evaluation.
  assert (H2 : IO.ReadAll (Body (request c)) = (Demo.bytes "req-body", None))
    by reflexivity.
  assert (H3 : ReqContext (request (handled Demo.rt (next c'))) = ReqContext (request c'))
    by by_evaluation.
  assert (H4 : suppressed (handled Demo.rt (next c')) = false) by by_evaluation.
  split; [repeat split; assumption|].
  destruct (ZapLogger_over_LoggerWithContext Demo.rt None next c (Demo.bytes "req-body")
              H1 H2 H3 H4) as (e & He & Ht & _).
  assert (E0 : entries (handled Demo.rt (next c')) = []) by by_evaluation.
  fold c' in He. rewrite He, E0. simpl. rewrite Ht. reflexivity.
Defined.

(** X18 on a body without control bytes and on one with five. *)
Lemma BodyDump_strips_once_witness :
  (forallb (fun x => negb (is_control x)) Demo.dump_out = true
   /\ ENVIRONMENT Demo.rt <> "production"
   /\ path Demo.ordinary <> "/healthz")
  /\ (Message <$> global_entries (BodyDump Demo.rt Demo.ordinary Demo.dump_out Demo.dump_out))
     = [("Body dump: " ++ string_of_list_byte Demo.dump_out ++ "|"
         ++ string_of_list_byte Demo.dump_out)%string]
  /\ BodyDump Demo.rt Demo.ordinary (strip_controls Demo.dump_in) (strip_controls Demo.dump_in)
     = BodyDump Demo.rt Demo.ordinary Demo.dump_in Demo.dump_in.
Proof.
  assert (H1 : forallb (fun x => negb (is_control x)) Demo.dump_out = true) by reflexivity.
  assert (H2 : ENVIRONMENT Demo.rt <> "production") by discriminate.
  assert (H3 : path Demo.ordinary <> "/healthz") by discriminate.
  split; [repeat split; assumption|].
  destruct (BodyDump_strips_once Demo.rt Demo.ordinary Demo.dump_out Demo.dump_out)
    as (_ & Hclean & _).
  destruct (BodyDump_strips_once Demo.rt Demo.ordinary Demo.dump_in Demo.dump_in)
    as (Hsame & _).
  split; [rewrite (Hclean H1 H1 H2 H3); by_evaluation | exact Hsame].
Defined.
